(** * provider-digitalocean: the Database Cluster controller

    A shallow embedding of
      - pkg/clients/database/database.go  (GenerateDatabase, LateInitializeSpec)
      - the database controller           (Observe, Create, Update, Delete,
                                           setCrossplaneStatus)
    Go values are modelled as follows.
      - [error] is [option goerror]; [None] is Go's nil error.
      - a [*string] is an [option string]; [None] is the nil pointer.
      - a [[]string] is a slice header (a location and a length) into a heap of
        backing arrays, so that aliasing and fresh copies can be told apart.
      - a [map[string]string] is a [gmap string string].
      - the remote service and the object store are oracles (records of
        functions); every call made to them is appended to a trace.
      - a run-time panic (nil dereference) is an outcome of its own. *)

From stdpp Require Import gmap strings list fin_maps.
From Stdlib Require Import ZArith.

Open Scope string_scope.
Open Scope list_scope.
Open Scope nat_scope.
Open Scope stdpp_scope.

(** ** github.com/pkg/errors *)
Module errors.

(** An error value.  Stack traces are not represented. *)
Inductive goerror :=
| fundamental (msg : string)
| withMessage (cause : goerror) (msg : string).

Definition error := option goerror.

(** errors.New *)
Definition New (message : string) : error := Some (fundamental message).

(** errors.Wrap: annotates [err] with [message]; if [err] is nil, Wrap
    returns nil. *)
Definition Wrap (err : error) (message : string) : error :=
  match err with
  | None => None
  | Some cause => Some (withMessage cause message)
  end.

(** The Error() method: "message: cause". *)
Fixpoint Error (e : goerror) : string :=
  match e with
  | fundamental msg => msg
  | withMessage cause msg => (msg +:+ ": " +:+ Error cause)%string
  end.

#[global] Instance goerror_eq_dec : EqDecision goerror.
Proof. solve_decision. Defined.

End errors.

(** ** Slices of strings over a heap of backing arrays *)
Module slices.

Definition loc := positive.

Inductive slice :=
| nilSlice
| mkSlice (array : loc) (length : nat).

#[global] Instance slice_eq_dec : EqDecision slice.
Proof. solve_decision. Defined.

(** len(s) *)
Definition len (s : slice) : nat :=
  match s with
  | nilSlice => 0
  | mkSlice _ n => n
  end.

(** s == nil *)
Definition is_nil (s : slice) : bool :=
  match s with
  | nilSlice => true
  | mkSlice _ _ => false
  end.

(** The elements a slice denotes in a heap. *)
Definition contents (h : gmap loc (list string)) (s : slice) : list string :=
  match s with
  | nilSlice => []
  | mkSlice l n => take n (default [] (h !! l))
  end.

(** A slice is valid in a heap when its backing array is allocated and at
    least as long as the slice. *)
Definition valid (h : gmap loc (list string)) (s : slice) : Prop :=
  match s with
  | nilSlice => True
  | mkSlice l n => ∃ a, h !! l = Some a ∧ n ≤ length a
  end.

(** make([]string, n): a fresh backing array of n empty strings. *)
Definition make (n : nat) (h : gmap loc (list string))
  : slice * gmap loc (list string) :=
  let l := fresh (dom h) in
  (mkSlice l n, <[l := replicate n ""]> h).

(** copy(dst, src): writes the first min(len dst, len src) elements of src
    into the backing array of dst. *)
Definition copy (dst src : slice) (h : gmap loc (list string))
  : gmap loc (list string) :=
  match dst with
  | nilSlice => h
  | mkSlice l n =>
      let k := Nat.min n (len src) in
      let elems := take k (contents h src) in
      alter (λ a, elems ++ drop (length elems) a) l h
  end.

End slices.
Export slices.

Abbreviation Heap := (gmap loc (list string)).

(** ** github.com/digitalocean/godo (the fields this code reads and writes) *)
Module godo.

(** godo.Database.  [T] is the representation of the tag list: a [slice] for
    the Go value, [option (list string)] for its JSON form on the wire. *)
Record Database_ (T : Type) := mkDatabase {
  ID : string;
  Name : string;
  EngineSlug : string;
  VersionSlug : string;
  NumNodes : Z;
  SizeSlug : string;
  RegionSlug : string;
  Status : string;
  PrivateNetworkUUID : string;
  Tags : T;
}.
Arguments mkDatabase {T}.
Arguments ID {T}.
Arguments Name {T}.
Arguments EngineSlug {T}.
Arguments VersionSlug {T}.
Arguments NumNodes {T}.
Arguments SizeSlug {T}.
Arguments RegionSlug {T}.
Arguments Status {T}.
Arguments PrivateNetworkUUID {T}.
Arguments Tags {T}.

Abbreviation Database := (Database_ slice).
Abbreviation DatabaseJSON := (Database_ (option (list string))).

(** godo.DatabaseCreateRequest *)
Record DatabaseCreateRequest_ (T : Type) := mkDatabaseCreateRequest {
  req_Name : string;
  req_EngineSlug : string;
  req_Version : string;
  req_SizeSlug : string;
  req_Region : string;
  req_NumNodes : Z;
  req_PrivateNetworkUUID : string;
  req_Tags : T;
}.
Arguments mkDatabaseCreateRequest {T}.
Arguments req_Name {T}.
Arguments req_EngineSlug {T}.
Arguments req_Version {T}.
Arguments req_SizeSlug {T}.
Arguments req_Region {T}.
Arguments req_NumNodes {T}.
Arguments req_PrivateNetworkUUID {T}.
Arguments req_Tags {T}.

Abbreviation DatabaseCreateRequest := (DatabaseCreateRequest_ slice).
Abbreviation DatabaseCreateRequestJSON :=
  (DatabaseCreateRequest_ (option (list string))).

(** &godo.DatabaseCreateRequest{} : the zero value. *)
Definition emptyCreateRequest : DatabaseCreateRequest :=
  mkDatabaseCreateRequest "" "" "" "" "" 0%Z "" nilSlice.

(** godo.Response: the HTTP status code is all this code can depend on. *)
Record Response := mkResponse { StatusCode : Z }.

(** Decoding a database received from the service allocates its tag list. *)
Definition decode (d : DatabaseJSON) (h : Heap) : Database * Heap :=
  let '(tags, h') :=
    match Tags d with
    | None => (nilSlice, h)
    | Some l => let l0 := fresh (dom h) in
                (mkSlice l0 (length l), <[l0 := l]> h)
    end in
  (mkDatabase (ID d) (Name d) (EngineSlug d) (VersionSlug d) (NumNodes d)
     (SizeSlug d) (RegionSlug d) (Status d) (PrivateNetworkUUID d) tags, h').

(** Encoding a create request reads the tag list out of the heap. *)
Definition encode (r : DatabaseCreateRequest) (h : Heap)
  : DatabaseCreateRequestJSON :=
  mkDatabaseCreateRequest (req_Name r) (req_EngineSlug r) (req_Version r)
    (req_SizeSlug r) (req_Region r) (req_NumNodes r)
    (req_PrivateNetworkUUID r)
    (if is_nil (req_Tags r) then None else Some (contents h (req_Tags r))).

End godo.

(** ** crossplane-runtime/apis/common/v1: conditions *)
Module xpv1.

Inductive ConditionStatus := ConditionTrue | ConditionFalse | ConditionUnknown.

#[global] Instance ConditionStatus_eq_dec : EqDecision ConditionStatus.
Proof. solve_decision. Defined.

(** A condition.  Its LastTransitionTime is wall-clock time and is left out;
    Equal ignores it as well. *)
Record Condition := mkCondition {
  Type_ : string;
  Status : ConditionStatus;
  Reason : string;
  Message : string;
}.

#[global] Instance Condition_eq_dec : EqDecision Condition.
Proof. solve_decision. Defined.

Definition TypeReady : string := "Ready".

Definition Creating : Condition :=
  mkCondition TypeReady ConditionFalse "Creating" "".
Definition Deleting : Condition :=
  mkCondition TypeReady ConditionFalse "Deleting" "".
Definition Available : Condition :=
  mkCondition TypeReady ConditionTrue "Available" "".
Definition Unavailable : Condition :=
  mkCondition TypeReady ConditionFalse "Unavailable" "".

(** Condition.Equal *)
Definition Equal (c other : Condition) : bool :=
  bool_decide (Type_ c = Type_ other) && bool_decide (Status c = Status other)
  && bool_decide (Reason c = Reason other)
  && bool_decide (Message c = Message other).

(** The inner loop of SetConditions for one new condition: every existing
    condition of the same type is kept when Equal and replaced otherwise; the
    flag tells whether one was met. *)
Fixpoint replaceCondition (new : Condition) (cs : list Condition)
  : list Condition * bool :=
  match cs with
  | [] => ([], false)
  | existing :: rest =>
      let '(rest', found) := replaceCondition new rest in
      if bool_decide (Type_ existing = Type_ new)
      then ((if Equal existing new then existing else new) :: rest', true)
      else (existing :: rest', found)
  end.

Definition setCondition (cs : list Condition) (new : Condition)
  : list Condition :=
  let '(cs', exists_) := replaceCondition new cs in
  if exists_ then cs' else cs' ++ [new].

(** ConditionedStatus.SetConditions *)
Definition SetConditions (cs : list Condition) (c : list Condition)
  : list Condition :=
  foldl setCondition cs c.

(** ConditionedStatus.GetCondition: the first condition of the given type, an
    Unknown condition of that type when there is none. *)
Fixpoint GetCondition (cs : list Condition) (ct : string) : Condition :=
  match cs with
  | [] => mkCondition ct ConditionUnknown "" ""
  | c :: rest => if bool_decide (Type_ c = ct) then c else GetCondition rest ct
  end.

End xpv1.

(** ** apis/database/v1alpha1: the Database Cluster resource *)
Module v1alpha1.

(** The status values the controller switches on.
    Modelled from the spec: the constants StatusCreating .. StatusForking are
    declared in apis/database/v1alpha1; the spec's table gives their values. *)
Definition StatusCreating : string := "creating".
Definition StatusOnline : string := "online".
Definition StatusMigrating : string := "migrating".
Definition StatusResizing : string := "resizing".
Definition StatusForking : string := "forking".

(** DODatabaseClusterParameters, as database.go reads and writes it. *)
Record DODatabaseClusterParameters := mkParameters {
  Engine : option string;
  Version : option string;
  NumNodes : Z;
  Size : string;
  Region : string;
  PrivateNetworkUUID : option string;
  Tags : slice;
}.

#[global] Instance Parameters_eq_dec : EqDecision DODatabaseClusterParameters.
Proof. solve_decision. Defined.

(** DODatabaseClusterObservation.  The controller dereferences ID (a pointer)
    and switches on Status (a string).
    Modelled from the spec: the remaining fields mirror the observed state the
    spec lists (engine slug, version, private-network id, tags); the
    declaration is in apis/database/v1alpha1. *)
Record DODatabaseClusterObservation := mkObservation {
  ID : option string;
  Status : string;
  ObservedEngineSlug : string;
  ObservedVersion : string;
  ObservedPrivateNetworkUUID : string;
  ObservedTags : slice;
}.

(** DODatabaseCluster: object metadata (name, annotations), Spec
    (WriteConnectionSecretToReference, ForProvider) and Status (Conditions,
    AtProvider), flattened. *)
Record DODatabaseCluster := mkCluster {
  ObjectName : string;
  Annotations : gmap string string;
  WriteConnectionSecretToReference : option string;
  ForProvider : DODatabaseClusterParameters;
  Conditions : list xpv1.Condition;
  AtProvider : DODatabaseClusterObservation;
}.

(** cr.GetName() *)
Definition GetName (cr : DODatabaseCluster) : string := ObjectName cr.

Definition withAnnotations (cr : DODatabaseCluster) (a : gmap string string) :=
  mkCluster (ObjectName cr) a (WriteConnectionSecretToReference cr)
    (ForProvider cr) (Conditions cr) (AtProvider cr).

Definition withForProvider (cr : DODatabaseCluster)
  (p : DODatabaseClusterParameters) :=
  mkCluster (ObjectName cr) (Annotations cr)
    (WriteConnectionSecretToReference cr) p (Conditions cr) (AtProvider cr).

Definition withConditions (cr : DODatabaseCluster) (cs : list xpv1.Condition) :=
  mkCluster (ObjectName cr) (Annotations cr)
    (WriteConnectionSecretToReference cr) (ForProvider cr) cs (AtProvider cr).

Definition withAtProvider (cr : DODatabaseCluster)
  (o : DODatabaseClusterObservation) :=
  mkCluster (ObjectName cr) (Annotations cr)
    (WriteConnectionSecretToReference cr) (ForProvider cr) (Conditions cr) o.

(** cr.SetConditions(c...) and cr.Status.SetConditions(c...) *)
Definition SetConditions (cr : DODatabaseCluster) (c : list xpv1.Condition) :=
  withConditions cr (xpv1.SetConditions (Conditions cr) c).

(** The resource with its observed status string replaced. *)
Definition withStatus (cr : DODatabaseCluster) (s : string) : DODatabaseCluster :=
  withAtProvider cr
    (mkObservation (ID (AtProvider cr)) s (ObservedEngineSlug (AtProvider cr))
       (ObservedVersion (AtProvider cr))
       (ObservedPrivateNetworkUUID (AtProvider cr))
       (ObservedTags (AtProvider cr))).

(** cr.GetCondition(ct) *)
Definition GetCondition (cr : DODatabaseCluster) (ct : string) : xpv1.Condition :=
  xpv1.GetCondition (Conditions cr) ct.

(** DeepCopy of the parameters: pointers and the tag list are duplicated; a
    nil tag list stays nil.
    Modelled from the spec: DeepCopy is generated code of
    apis/database/v1alpha1; Observe takes its pre-call snapshot of the
    parameters with it. *)
Definition DeepCopy (p : DODatabaseClusterParameters) (h : Heap)
  : DODatabaseClusterParameters * Heap :=
  match Tags p with
  | nilSlice => (p, h)
  | mkSlice _ n =>
      let '(t, h1) := make n h in
      let h2 := copy t (Tags p) h1 in
      (mkParameters (Engine p) (Version p) (NumNodes p) (Size p) (Region p)
         (PrivateNetworkUUID p) t, h2)
  end.

End v1alpha1.

(** ** crossplane-runtime/pkg/meta *)
Module meta.

Definition AnnotationKeyExternalName : string := "crossplane.io/external-name".

(** meta.GetExternalName: the annotation, the empty string when absent. *)
Definition GetExternalName (cr : v1alpha1.DODatabaseCluster) : string :=
  default "" (v1alpha1.Annotations cr !! AnnotationKeyExternalName).

(** meta.SetExternalName *)
Definition SetExternalName (cr : v1alpha1.DODatabaseCluster) (name : string)
  : v1alpha1.DODatabaseCluster :=
  v1alpha1.withAnnotations cr
    (<[AnnotationKeyExternalName := name]> (v1alpha1.Annotations cr)).

End meta.

(** ** github.com/google/go-cmp/cmp *)
Module cmp.

(** cmp.Equal on two parameter structs: pointers are compared by what they
    point to, slices by nil-ness and elements. *)
Definition Equal (h : Heap) (x y : v1alpha1.DODatabaseClusterParameters)
  : bool :=
  bool_decide (v1alpha1.Engine x = v1alpha1.Engine y)
  && bool_decide (v1alpha1.Version x = v1alpha1.Version y)
  && bool_decide (v1alpha1.NumNodes x = v1alpha1.NumNodes y)
  && bool_decide (v1alpha1.Size x = v1alpha1.Size y)
  && bool_decide (v1alpha1.Region x = v1alpha1.Region y)
  && bool_decide (v1alpha1.PrivateNetworkUUID x = v1alpha1.PrivateNetworkUUID y)
  && bool_decide (is_nil (v1alpha1.Tags x) = is_nil (v1alpha1.Tags y))
  && bool_decide (contents h (v1alpha1.Tags x) = contents h (v1alpha1.Tags y)).

End cmp.

(** ** pkg/clients: helpers shared by the clients *)
Module clients.

(** Modelled from the spec: do.StringValue is declared in pkg/clients; it
    converts a string pointer to a string, the empty string if absent. *)
Definition StringValue (v : option string) : string := default "" v.

(** Modelled from the spec: do.LateInitializeString is declared in
    pkg/clients; a field that is set is never overwritten, a field that is
    unset takes the observed value when that is set (non-zero). *)
Definition LateInitializeString (s : option string) (from : string)
  : option string :=
  match s with
  | Some _ => s
  | None => if bool_decide (from = "") then None else Some from
  end.

(** Modelled from the spec: do.IgnoreNotFound is declared in pkg/clients; a
    not-found response from the remote service makes the error nil, any other
    error is passed on. *)
Definition isNotFound (response : option godo.Response) : bool :=
  match response with
  | Some r => bool_decide (godo.StatusCode r = 404%Z)
  | None => false
  end.

Definition IgnoreNotFound (err : errors.error) (response : option godo.Response)
  : errors.error :=
  if isNotFound response then None else err.

End clients.

(** ** pkg/clients/database/database.go *)
Module dodb.
Import v1alpha1.

(** GenerateDatabase fills the create request from the parameters.  The tag
    list is passed through: the request shares its backing array. *)
Definition GenerateDatabase (name : string) (in_ : DODatabaseClusterParameters)
  (create : godo.DatabaseCreateRequest) : godo.DatabaseCreateRequest :=
  godo.mkDatabaseCreateRequest
    name
    (clients.StringValue (Engine in_))
    (clients.StringValue (Version in_))
    (Size in_)
    (Region in_)
    (NumNodes in_)
    (clients.StringValue (PrivateNetworkUUID in_))
    (Tags in_).

(** LateInitializeSpec updates the parameters in place; the updated parameters
    and heap are returned. *)
Definition LateInitializeSpec (p : DODatabaseClusterParameters)
  (observed : godo.Database) (h : Heap) : DODatabaseClusterParameters * Heap :=
  let version := clients.LateInitializeString (Version p) (godo.EngineSlug observed) in
  let uuid := clients.LateInitializeString (PrivateNetworkUUID p)
                (godo.PrivateNetworkUUID observed) in
  if bool_decide (len (Tags p) = 0) && negb (bool_decide (len (godo.Tags observed) = 0))
  then
    let '(tags, h1) := make (len (godo.Tags observed)) h in
    let h2 := copy tags (godo.Tags observed) h1 in
    (mkParameters (Engine p) version (NumNodes p) (Size p) (Region p) uuid tags, h2)
  else
    (mkParameters (Engine p) version (NumNodes p) (Size p) (Region p) uuid (Tags p), h).

(** Modelled from the spec: GenerateObservation is declared in
    pkg/clients/database; the observed state mirrors the service's
    representation of the database. *)
Definition GenerateObservation (observed : godo.Database)
  : DODatabaseClusterObservation :=
  mkObservation (Some (godo.ID observed)) (godo.Status observed)
    (godo.EngineSlug observed) (godo.VersionSlug observed)
    (godo.PrivateNetworkUUID observed) (godo.Tags observed).

End dodb.

(** ** crossplane-runtime/pkg/resource and pkg/reconciler/managed *)
Module resource.

(** The generic managed-resource handle: a pointer to a Database Cluster, or
    a resource of some other kind. *)
Inductive Managed :=
| DatabaseCluster (cr : v1alpha1.DODatabaseCluster)
| OtherKind (kind : string).

End resource.

Module managed.

Record ExternalObservation := mkExternalObservation {
  ResourceExists : bool;
  ResourceUpToDate : bool;
}.

Record ExternalCreation := mkExternalCreation {
  ConnectionDetails : gmap string string;
}.

Inductive ExternalUpdate := mkExternalUpdate.

(** The zero values. *)
Definition emptyObservation : ExternalObservation :=
  mkExternalObservation false false.
Definition emptyCreation : ExternalCreation := mkExternalCreation ∅.

End managed.

(** ** The database controller *)
Module controller.
Import errors v1alpha1 resource managed.

(** Error strings. *)
Definition errNotDB : string :=
  "managed resource is not a Database Cluster resource".
Definition errGetDB : string := "cannot get a Database Cluster".
Definition errDBNameRequired : string := "name of Database Cluster is required".
Definition errDBCreateFailed : string :=
  "creation of Database Cluster resource has failed".
Definition errDBDeleteFailed : string :=
  "deletion of Database Cluster resource has failed".
Definition errDBUpdate : string :=
  "cannot update managed Database Cluster resource".

(** dbExternal: the object-store client and the remote-service client, as the
    answers they give.
    Modelled from the spec: GenerateConnectionDetails is declared in
    pkg/clients/database; it fetches the connection details of a database
    through the remote client. *)
Record dbExternal := mkDbExternal {
  kube_Update : Heap → DODatabaseCluster → error;
  Databases_Get :
    string → option godo.DatabaseJSON * option godo.Response * error;
  Databases_Create :
    godo.DatabaseCreateRequestJSON →
    option godo.DatabaseJSON * option godo.Response * error;
  Databases_Delete : string → option godo.Response * error;
  GenerateConnectionDetails : godo.Database → gmap string string;
}.

(** A call that leaves the process. *)
Inductive Call :=
| CallGet (id : string)
| CallCreate (req : godo.DatabaseCreateRequestJSON)
| CallDelete (id : string)
| CallConnectionDetails (id : string)
| CallKubeUpdate (cr : DODatabaseCluster).

(** The state an operation runs in: the heap of backing arrays and the calls
    made so far, oldest first. *)
Record World := mkWorld {
  heap : Heap;
  calls : list Call;
}.

Definition record (c : Call) (w : World) : World :=
  mkWorld (heap w) (calls w ++ [c]).

Definition withHeap (w : World) (h : Heap) : World := mkWorld h (calls w).

(** The calls made between an earlier world and a later one. *)
Definition newCalls (w w' : World) : list Call :=
  drop (length (calls w)) (calls w').

(** How an operation ends: it returns, or it panics. *)
Inductive Outcome (A : Type) :=
| Returned (a : A)
| Panicked.
Arguments Returned {A}.
Arguments Panicked {A}.

(** Receiving an optional database from the service. *)
Definition receive (d : option godo.DatabaseJSON) (w : World)
  : option godo.Database * World :=
  match d with
  | None => (None, w)
  | Some j => let '(db, h) := godo.decode j (heap w) in (Some db, withHeap w h)
  end.

Definition setCrossplaneStatus (cr : DODatabaseCluster) : DODatabaseCluster :=
  let s := Status (AtProvider cr) in
  if bool_decide (s = StatusCreating) then SetConditions cr [xpv1.Creating]
  else if bool_decide (s = StatusOnline) then SetConditions cr [xpv1.Available]
  else if bool_decide (s = StatusMigrating) then cr
  else if bool_decide (s = StatusResizing) then cr
  else if bool_decide (s = StatusForking) then SetConditions cr [xpv1.Unavailable]
  else cr.

Definition Observe (c : dbExternal) (mg : Managed) (w : World)
  : Outcome (ExternalObservation * error) * Managed * World :=
  match mg with
  | OtherKind _ => (Returned (emptyObservation, New errNotDB), mg, w)
  | DatabaseCluster cr =>
      let en := meta.GetExternalName cr in
      if bool_decide (en = "") then
        (Returned (mkExternalObservation false false, None), mg, w)
      else
        let '(observed, response, err) := Databases_Get c (meta.GetExternalName cr) in
        let '(observed, w) := receive observed (record (CallGet (meta.GetExternalName cr)) w) in
        match err with
        | Some _ =>
            (Returned (emptyObservation,
                       Wrap (clients.IgnoreNotFound err response) errGetDB), mg, w)
        | None =>
            let '(currentSpec, h) := DeepCopy (ForProvider cr) (heap w) in
            let w := withHeap w h in
            match observed with
            | None => (Panicked, mg, w)
            | Some observed =>
                let '(p, h) := dodb.LateInitializeSpec (ForProvider cr) observed (heap w) in
                let w := withHeap w h in
                let cr := withForProvider cr p in
                let '(err, w) :=
                  if negb (cmp.Equal (heap w) currentSpec (ForProvider cr))
                  then (kube_Update c (heap w) cr, record (CallKubeUpdate cr) w)
                  else (None, w) in
                match err with
                | Some _ =>
                    (Returned (emptyObservation, Wrap err errDBUpdate),
                     DatabaseCluster cr, w)
                | None =>
                    let cr := withAtProvider cr (dodb.GenerateObservation observed) in
                    let cr := setCrossplaneStatus cr in
                    (Returned (mkExternalObservation true true, None),
                     DatabaseCluster cr, w)
                end
            end
        end
  end.

Definition Create (c : dbExternal) (mg : Managed) (w : World)
  : Outcome (ExternalCreation * error) * Managed * World :=
  match mg with
  | OtherKind _ => (Returned (emptyCreation, New errNotDB), mg, w)
  | DatabaseCluster cr =>
      let cr := SetConditions cr [xpv1.Creating] in
      let create := godo.emptyCreateRequest in
      let name :=
        if negb (bool_decide (meta.GetExternalName cr = ""))
        then meta.GetExternalName cr
        else GetName cr in
      if bool_decide (name = "") then
        (Returned (emptyCreation, New errDBNameRequired), DatabaseCluster cr, w)
      else
        let create := dodb.GenerateDatabase name (ForProvider cr) create in
        let '(db, _, err) := Databases_Create c (godo.encode create (heap w)) in
        let '(db, w) := receive db (record (CallCreate (godo.encode create (heap w))) w) in
        match err, db with
        | None, Some db =>
            let cr := meta.SetExternalName cr (godo.ID db) in
            let '(ec, w) :=
              match WriteConnectionSecretToReference cr with
              | Some _ =>
                  (mkExternalCreation (GenerateConnectionDetails c db),
                   record (CallConnectionDetails (godo.ID db)) w)
              | None => (emptyCreation, w)
              end in
            (Returned (ec, None), DatabaseCluster cr, w)
        | _, _ =>
            (Returned (emptyCreation, Wrap err errDBCreateFailed),
             DatabaseCluster cr, w)
        end
  end.

Definition Update (c : dbExternal) (mg : Managed) (w : World)
  : Outcome (ExternalUpdate * error) * Managed * World :=
  (Returned (mkExternalUpdate, None), mg, w).

Definition Delete (c : dbExternal) (mg : Managed) (w : World)
  : Outcome error * Managed * World :=
  match mg with
  | OtherKind _ => (Returned (New errNotDB), mg, w)
  | DatabaseCluster cr =>
      let cr := SetConditions cr [xpv1.Deleting] in
      match ID (AtProvider cr) with
      | None => (Panicked, DatabaseCluster cr, w)
      | Some id =>
          let '(response, err) := Databases_Delete c id in
          let w := record (CallDelete id) w in
          (Returned (Wrap (clients.IgnoreNotFound err response) errDBDeleteFailed),
           DatabaseCluster cr, w)
      end
  end.

End controller.

(** ** What Create sends *)
Module requests.
Import v1alpha1 controller.

(** The name Create resolves for the database (its local [name]). *)
Definition targetName (cr : DODatabaseCluster) : string :=
  if negb (bool_decide (meta.GetExternalName cr = ""))
  then meta.GetExternalName cr
  else GetName cr.

(** The create request Create hands to the service, as it goes on the
    wire. *)
Definition createRequest (cr : DODatabaseCluster) (h : Heap)
  : godo.DatabaseCreateRequestJSON :=
  godo.encode
    (dodb.GenerateDatabase (targetName cr) (ForProvider cr)
       godo.emptyCreateRequest) h.

End requests.

(** ** Concrete resources, clients and worlds *)
Module examples.
Import errors v1alpha1 resource managed controller.

Definition parameters : DODatabaseClusterParameters :=
  mkParameters (Some "pg") None 1%Z "db-s-1vcpu-1gb" "nyc1" None nilSlice.

(** A Database Cluster named [name], with the external-name annotation [en]
    (none when [en] is [None]) and the observed identifier [id]. *)
Definition cluster (name : string) (en id : option string)
  : DODatabaseCluster :=
  mkCluster name
    (match en with
     | Some e => {[ meta.AnnotationKeyExternalName := e ]}
     | None => ∅
     end)
    None parameters [] (mkObservation id "" "" "" "" nilSlice).

Definition emptyWorld : World := mkWorld ∅ [].

(** The database the service reports. *)
Definition remoteDatabase : godo.DatabaseJSON :=
  godo.mkDatabase "abc" "db1" "mysql" "8" 3%Z "db-s-2vcpu-4gb" "ams3"
    "online" "vpc-1" (Some ["a"; "b"]).

(** A service that answers every call with nothing at all. *)
Definition silentClient : dbExternal :=
  mkDbExternal (λ _ _, None) (λ _, (None, None, None))
    (λ _, (None, None, None)) (λ _, (None, None)) (λ _, ∅).

(** A service that knows no database: every lookup is a 404. *)
Definition notFoundClient : dbExternal :=
  mkDbExternal (λ _ _, None)
    (λ _, (None, Some (godo.mkResponse 404), Some (fundamental "404 not found")))
    (λ _, (None, Some (godo.mkResponse 500), Some (fundamental "500 server error")))
    (λ _, (Some (godo.mkResponse 404), Some (fundamental "404 not found")))
    (λ _, ∅).

(** A service that fails every call with a server error. *)
Definition brokenClient : dbExternal :=
  mkDbExternal (λ _ _, None)
    (λ _, (None, Some (godo.mkResponse 500), Some (fundamental "500 server error")))
    (λ _, (None, Some (godo.mkResponse 500), Some (fundamental "500 server error")))
    (λ _, (Some (godo.mkResponse 500), Some (fundamental "500 server error")))
    (λ _, ∅).

(** A service that holds [remoteDatabase]. *)
Definition healthyClient : dbExternal :=
  mkDbExternal (λ _ _, None)
    (λ _, (Some remoteDatabase, Some (godo.mkResponse 200), None))
    (λ _, (Some remoteDatabase, Some (godo.mkResponse 201), None))
    (λ _, (Some (godo.mkResponse 204), None))
    (λ _, ∅).

(** A service that holds [remoteDatabase], next to an object store that
    refuses every update. *)
Definition conflictingStoreClient : dbExternal :=
  mkDbExternal (λ _ _, Some (fundamental "conflict"))
    (λ _, (Some remoteDatabase, Some (godo.mkResponse 200), None))
    (λ _, (Some remoteDatabase, Some (godo.mkResponse 201), None))
    (λ _, (Some (godo.mkResponse 204), None))
    (λ _, ∅).

(** Parameters with every optional field set; their tags live in
    [tagHeap]. *)
Definition fullParameters : DODatabaseClusterParameters :=
  mkParameters (Some "pg") (Some "14") 1%Z "db-s-1vcpu-1gb" "nyc1"
    (Some "vpc-0") (mkSlice 1%positive 1).

(** A heap with one backing array, and an observed database whose tags live
    in it. *)
Definition tagHeap : Heap := {[ 1%positive := ["a"; "b"] ]}.

Definition observedDatabase : godo.Database :=
  godo.mkDatabase "abc" "db1" "mysql" "8" 3%Z "db-s-2vcpu-4gb" "ams3"
    "online" "vpc-1" (mkSlice 1%positive 2).

End examples.

(** * Properties *)

(** ** Slices *)
Section slice_facts.
Implicit Types (h : Heap) (s : slice) (n : nat).

Lemma make_spec n h :
  ∃ l, make n h = (mkSlice l n, <[l := replicate n ""]> h) ∧ l ∉ dom h.
Proof.
  exists (fresh (dom h)). split; [reflexivity|]. apply is_fresh.
Qed.

Lemma valid_length h s : valid h s → length (contents h s) = len s.
Proof.
  destruct s as [|l n]; simpl; [done|].
  intros (a & -> & Hle). simpl. rewrite length_take. lia.
Qed.

Lemma contents_insert_fresh h s l a :
  valid h s → l ∉ dom h → contents (<[l := a]> h) s = contents h s.
Proof.
  destruct s as [|l' n]; simpl; [done|].
  intros (a' & Hl' & _) Hl.
  assert (l ≠ l') by (intros ->; apply Hl, elem_of_dom; eauto).
  by rewrite lookup_insert_ne.
Qed.

(** A slice made with the length of [src] and then filled by [copy] holds the
    elements of [src], in a backing array that did not exist before, and
    every array that did exist is left as it was. *)
Lemma make_copy_spec h src :
  valid h src →
  ∃ l h1,
    make (len src) h = (mkSlice l (len src), h1)
    ∧ (l ∉ dom h)
    ∧ contents (copy (mkSlice l (len src)) src h1) (mkSlice l (len src))
      = contents h src
    ∧ (∀ l', l' ∈ dom h → copy (mkSlice l (len src)) src h1 !! l' = h !! l').
Proof.
  intros Hv. destruct (make_spec (len src) h) as (l & Hmk & Hfresh).
  exists l, (<[l := replicate (len src) ""]> h).
  split; [done|]. split; [done|]. split.
  - simpl. rewrite lookup_alter_eq, lookup_insert_eq. simpl.
    rewrite (contents_insert_fresh h src l _ Hv Hfresh).
    rewrite Nat.min_id.
    pose proof (valid_length h src Hv) as Hlen.
    rewrite (take_ge (contents h src)) by lia.
    rewrite take_app_le by lia. rewrite take_ge by lia. done.
  - intros l' Hl'. simpl. rewrite lookup_alter_ne, lookup_insert_ne; [done| |];
      intros ->; contradiction.
Qed.

End slice_facts.

(** ** Late initialization *)
Section late_initialize.
Import v1alpha1.

Lemma LateInitializeString_set v from :
  clients.LateInitializeString (Some v) from = Some v.
Proof. reflexivity. Qed.

Lemma LateInitializeString_changes s from :
  clients.LateInitializeString s from ≠ s →
  s = None ∧ clients.LateInitializeString s from = Some from.
Proof.
  destruct s as [v|]; simpl; [done|].
  case_bool_decide; [done|]. by intros _.
Qed.

Lemma LateInitializeString_unset from :
  from ≠ "" → clients.LateInitializeString None from = Some from.
Proof. intros Hne. simpl. by rewrite bool_decide_eq_false_2. Qed.

(** Only unset fields are written: a field that changed was unset and took
    the observed value (for the tags, as a fresh copy); a field that was set
    is the same after the call, the remaining fields are never written, and
    no backing array that existed before the call is modified. *)
Lemma LateInitializeSpec_only_unset
  (p : DODatabaseClusterParameters) (observed : godo.Database) (h : Heap) :
  valid h (godo.Tags observed) →
  let p' := (dodb.LateInitializeSpec p observed h).1 in
  let h' := (dodb.LateInitializeSpec p observed h).2 in
  (Version p' ≠ Version p →
     Version p = None ∧ Version p' = Some (godo.EngineSlug observed))
  ∧ (PrivateNetworkUUID p' ≠ PrivateNetworkUUID p →
     PrivateNetworkUUID p = None
     ∧ PrivateNetworkUUID p' = Some (godo.PrivateNetworkUUID observed))
  ∧ (Tags p' ≠ Tags p →
     len (Tags p) = 0
     ∧ (∃ l, Tags p' = mkSlice l (len (godo.Tags observed)) ∧ l ∉ dom h)
     ∧ contents h' (Tags p') = contents h (godo.Tags observed))
  ∧ (∀ v, Version p = Some v → Version p' = Some v)
  ∧ (∀ u, PrivateNetworkUUID p = Some u → PrivateNetworkUUID p' = Some u)
  ∧ (len (Tags p) ≠ 0 →
     Tags p' = Tags p ∧ contents h' (Tags p') = contents h (Tags p))
  ∧ (Engine p' = Engine p ∧ NumNodes p' = NumNodes p
     ∧ Size p' = Size p ∧ Region p' = Region p)
  ∧ (∀ l, l ∈ dom h → h' !! l = h !! l).
Proof.
  intros Hv p' h'. subst p' h'. unfold dodb.LateInitializeSpec.
  destruct (make_copy_spec h _ Hv) as (l & h1 & Hmk & Hfresh & Hcont & Hold).
  destruct (bool_decide (len (Tags p) = 0)) eqn:Hp;
    destruct (bool_decide (len (godo.Tags observed) = 0)) eqn:Ho;
    cbn [andb negb]; try rewrite Hmk; cbn [fst snd Version PrivateNetworkUUID
      Tags Engine NumNodes Size Region];
    (split; [apply LateInitializeString_changes|]);
    (split; [apply LateInitializeString_changes|]).
  all: try apply bool_decide_eq_true_1 in Hp.
  all: try apply bool_decide_eq_false_1 in Hp.
  all: repeat split; try done.
  all: try (intros ? ->; reflexivity).
  all: eauto.
Qed.

(** The engine slug is the value version is initialised from, and the copy of
    the tags is made, whenever the desired field is unset and the observed
    one is not. *)
Lemma LateInitializeSpec_fills_unset
  (p : DODatabaseClusterParameters) (observed : godo.Database) (h : Heap) :
  let p' := (dodb.LateInitializeSpec p observed h).1 in
  (Version p = None → godo.EngineSlug observed ≠ "" →
     Version p' = Some (godo.EngineSlug observed))
  ∧ (PrivateNetworkUUID p = None → godo.PrivateNetworkUUID observed ≠ "" →
     PrivateNetworkUUID p' = Some (godo.PrivateNetworkUUID observed))
  ∧ (len (Tags p) = 0 → len (godo.Tags observed) ≠ 0 →
     Tags p' = (make (len (godo.Tags observed)) h).1).
Proof.
  intros p'. subst p'. unfold dodb.LateInitializeSpec.
  repeat split.
  - intros -> Hne. case_match; simpl; by apply LateInitializeString_unset.
  - intros -> Hne. case_match; simpl; by apply LateInitializeString_unset.
  - intros H0 Hne. rewrite bool_decide_eq_true_2, bool_decide_eq_false_2 by done.
    reflexivity.
Qed.

(** C5. LateInitializeSpec sets version to the observed engine slug only if
    version was unset, sets the private-network id to the observed one only
    if it was unset, and replaces the tag list by a fresh copy of the
    observed tags only if the desired tag list was empty; a field that was
    set (version, private-network id, a non-empty tag list) is the same after
    the call, the remaining fields are never written, and no backing array
    that existed before the call is modified.  And it does set them: an
    unset version becomes the observed engine slug and an unset
    private-network id the observed one, when those are not empty; an empty
    tag list is replaced by a slice over a new backing array that holds the
    observed tags, when there are any. *)
Theorem LateInitializeSpec_fills_only_unset
  (p : DODatabaseClusterParameters) (observed : godo.Database) (h : Heap) :
  valid h (godo.Tags observed) →
  let p' := (dodb.LateInitializeSpec p observed h).1 in
  let h' := (dodb.LateInitializeSpec p observed h).2 in
  (Version p' ≠ Version p →
     Version p = None ∧ Version p' = Some (godo.EngineSlug observed))
  ∧ (PrivateNetworkUUID p' ≠ PrivateNetworkUUID p →
     PrivateNetworkUUID p = None
     ∧ PrivateNetworkUUID p' = Some (godo.PrivateNetworkUUID observed))
  ∧ (Tags p' ≠ Tags p →
     len (Tags p) = 0
     ∧ (∃ l, Tags p' = mkSlice l (len (godo.Tags observed)) ∧ l ∉ dom h)
     ∧ contents h' (Tags p') = contents h (godo.Tags observed))
  ∧ (∀ v, Version p = Some v → Version p' = Some v)
  ∧ (∀ u, PrivateNetworkUUID p = Some u → PrivateNetworkUUID p' = Some u)
  ∧ (len (Tags p) ≠ 0 →
     Tags p' = Tags p ∧ contents h' (Tags p') = contents h (Tags p))
  ∧ (Engine p' = Engine p ∧ NumNodes p' = NumNodes p
     ∧ Size p' = Size p ∧ Region p' = Region p)
  ∧ (∀ l, l ∈ dom h → h' !! l = h !! l)
  ∧ (Version p = None → godo.EngineSlug observed ≠ "" →
     Version p' = Some (godo.EngineSlug observed))
  ∧ (PrivateNetworkUUID p = None → godo.PrivateNetworkUUID observed ≠ "" →
     PrivateNetworkUUID p' = Some (godo.PrivateNetworkUUID observed))
  ∧ (len (Tags p) = 0 → len (godo.Tags observed) ≠ 0 →
     Tags p' ≠ Tags p
     ∧ (∃ l, Tags p' = mkSlice l (len (godo.Tags observed)) ∧ l ∉ dom h)
     ∧ contents h' (Tags p') = contents h (godo.Tags observed)).
Proof.
  intros Hv p' h'.
  pose proof (LateInitializeSpec_only_unset p observed h Hv) as Honly.
  pose proof (LateInitializeSpec_fills_unset p observed h) as Hfill.
  cbv zeta in Honly, Hfill. fold p' in Honly, Hfill. fold h' in Honly.
  destruct Honly as (A1 & A2 & A3 & A4 & A5 & A6 & A7 & A8).
  destruct Hfill as (B1 & B2 & B3).
  split; [exact A1|]. split; [exact A2|]. split; [exact A3|].
  split; [exact A4|]. split; [exact A5|]. split; [exact A6|].
  split; [exact A7|]. split; [exact A8|].
  split; [exact B1|]. split; [exact B2|].
  intros H0 Hne.
  assert (Hneq : Tags p' ≠ Tags p).
  { rewrite (B3 H0 Hne). unfold make. cbn [fst]. intros Heq.
    rewrite <- Heq in H0. cbn [len] in H0. contradiction. }
  split; [exact Hneq|]. destruct (A3 Hneq) as (_ & Hl & Hc). by split.
Qed.

End late_initialize.

Lemma LateInitializeSpec_fills_only_unset_witness :
  valid examples.tagHeap (godo.Tags examples.observedDatabase)
  ∧ v1alpha1.Version
      (dodb.LateInitializeSpec examples.parameters examples.observedDatabase
         examples.tagHeap).1 = Some "mysql"
  ∧ contents
      (dodb.LateInitializeSpec examples.parameters examples.observedDatabase
         examples.tagHeap).2
      (v1alpha1.Tags
         (dodb.LateInitializeSpec examples.parameters examples.observedDatabase
            examples.tagHeap).1)
    = contents examples.tagHeap (godo.Tags examples.observedDatabase).
Proof.
  assert (Hv : valid examples.tagHeap (godo.Tags examples.observedDatabase)).
  { exists ["a"; "b"]. split; [reflexivity | simpl; lia]. }
  destruct (LateInitializeSpec_fills_only_unset
              examples.parameters examples.observedDatabase
              examples.tagHeap Hv)
    as (_ & _ & _ & _ & _ & _ & _ & _ & Hversion & _ & Htags).
  split; [exact Hv|]. split.
  - apply Hversion; [reflexivity | discriminate].
  - apply Htags; [reflexivity | simpl; lia].
Defined.

(** On the example the version becomes the engine slug and the tags are
    copied into a new array. *)
Example LateInitializeSpec_example :
  let r := dodb.LateInitializeSpec examples.parameters
             examples.observedDatabase examples.tagHeap in
  v1alpha1.Version r.1 = Some "mysql"
  ∧ v1alpha1.PrivateNetworkUUID r.1 = Some "vpc-1"
  ∧ v1alpha1.Tags r.1 = mkSlice 2%positive 2
  ∧ contents r.2 (v1alpha1.Tags r.1) = ["a"; "b"].
Proof. vm_compute. done. Qed.

(** ** Conditions *)
Section conditions.
Import xpv1.

Lemma Equal_eq c other : Equal c other = true → c = other.
Proof.
  unfold Equal. rewrite !andb_true_iff, !bool_decide_eq_true.
  destruct c, other; simpl. intros [[[-> ->] ->] ->]. reflexivity.
Qed.

Lemma GetCondition_app_none cs new :
  Forall (λ c, Type_ c ≠ Type_ new) cs →
  GetCondition (cs ++ [new]) (Type_ new) = new.
Proof.
  induction 1 as [|c cs Hc _ IH]; simpl.
  - by rewrite bool_decide_eq_true_2.
  - by rewrite bool_decide_eq_false_2.
Qed.

Lemma replaceCondition_spec new cs :
  ((replaceCondition new cs).2 = true →
     GetCondition (replaceCondition new cs).1 (Type_ new) = new)
  ∧ ((replaceCondition new cs).2 = false →
     (replaceCondition new cs).1 = cs
     ∧ Forall (λ c, Type_ c ≠ Type_ new) cs).
Proof.
  induction cs as [|existing rest [IHt IHf]]; simpl.
  - split; [discriminate|]. intros _. split; constructor.
  - destruct (replaceCondition new rest) as [rest' found] eqn:Hr. simpl in *.
    case_bool_decide as Hty; simpl.
    + split; [|discriminate]. intros _.
      destruct (Equal existing new) eqn:Heq; simpl.
      * rewrite bool_decide_eq_true_2 by done. by apply Equal_eq.
      * by rewrite bool_decide_eq_true_2.
    + split.
      * intros Hf. rewrite bool_decide_eq_false_2 by done. auto.
      * intros Hf. destruct (IHf Hf) as [-> Hall]. split; [done|].
        by constructor.
Qed.

(** After a condition is set it is the one GetCondition reports for its
    type. *)
Lemma GetCondition_SetConditions cs new :
  GetCondition (SetConditions cs [new]) (Type_ new) = new.
Proof.
  unfold SetConditions. simpl. unfold setCondition.
  pose proof (replaceCondition_spec new cs) as [Ht Hf].
  destruct (replaceCondition new cs) as [cs' found]. simpl in *.
  destruct found.
  - by apply Ht.
  - destruct (Hf eq_refl) as [-> Hall]. by apply GetCondition_app_none.
Qed.

End conditions.

(** ** The status mapping *)
Section status_mapping.
Import v1alpha1 controller.

(** C6. setCrossplaneStatus is a function of the resource's observed status
    string: "creating" sets the Creating condition, "online" sets Available,
    "forking" sets Unavailable; "migrating", "resizing" and every other value
    leave the resource (and so its conditions) as it was.  The function is
    total and has no error result. *)
Theorem setCrossplaneStatus_table (cr : DODatabaseCluster) :
  (setCrossplaneStatus (withStatus cr "creating")
     = SetConditions (withStatus cr "creating") [xpv1.Creating]
   ∧ GetCondition (setCrossplaneStatus (withStatus cr "creating")) xpv1.TypeReady = xpv1.Creating)
  ∧ (setCrossplaneStatus (withStatus cr "online")
     = SetConditions (withStatus cr "online") [xpv1.Available]
     ∧ GetCondition (setCrossplaneStatus (withStatus cr "online")) xpv1.TypeReady = xpv1.Available)
  ∧ (setCrossplaneStatus (withStatus cr "forking")
     = SetConditions (withStatus cr "forking") [xpv1.Unavailable]
     ∧ GetCondition (setCrossplaneStatus (withStatus cr "forking")) xpv1.TypeReady = xpv1.Unavailable)
  ∧ setCrossplaneStatus (withStatus cr "migrating") = withStatus cr "migrating"
  ∧ setCrossplaneStatus (withStatus cr "resizing") = withStatus cr "resizing"
  ∧ (∀ s : string, s ≠ "creating" → s ≠ "online" → s ≠ "forking" →
       setCrossplaneStatus (withStatus cr s) = withStatus cr s)
  ∧ (∀ cr' : DODatabaseCluster,
       Status (AtProvider cr') = Status (AtProvider cr) →
       Conditions cr' = Conditions cr →
       Conditions (setCrossplaneStatus cr')
       = Conditions (setCrossplaneStatus cr)).
Proof.
  split; [|split; [|split; [|split; [|split; [|split]]]]].
  - split; [reflexivity|].
    apply (GetCondition_SetConditions _ xpv1.Creating).
  - split; [reflexivity|].
    apply (GetCondition_SetConditions _ xpv1.Available).
  - split; [reflexivity|].
    apply (GetCondition_SetConditions _ xpv1.Unavailable).
  - reflexivity.
  - reflexivity.
  - intros s Hc Ho Hf. unfold setCrossplaneStatus. simpl.
    unfold StatusCreating, StatusOnline, StatusForking.
    repeat case_bool_decide; try reflexivity; contradiction.
  - intros cr' Hs Hc. unfold setCrossplaneStatus. rewrite Hs.
    repeat case_bool_decide; simpl; by rewrite Hc.
Qed.

End status_mapping.

Lemma setCrossplaneStatus_table_witness :
  controller.setCrossplaneStatus
    (v1alpha1.withStatus (examples.cluster "db1" (Some "abc") (Some "abc"))
       "degraded")
  = v1alpha1.withStatus (examples.cluster "db1" (Some "abc") (Some "abc"))
      "degraded".
Proof.
  apply (setCrossplaneStatus_table
           (examples.cluster "db1" (Some "abc") (Some "abc"))); discriminate.
Defined.

(** ** The lifecycle operations *)
Section lifecycle.
Import errors v1alpha1 resource managed controller.
Implicit Types (c : dbExternal) (cr : DODatabaseCluster) (w : World).

Lemma newCalls_same w : newCalls w w = [].
Proof. unfold newCalls. by rewrite drop_all. Qed.

Lemma GetExternalName_SetConditions cr cs :
  meta.GetExternalName (SetConditions cr cs) = meta.GetExternalName cr.
Proof. reflexivity. Qed.

Lemma AtProvider_SetConditions cr cs :
  AtProvider (SetConditions cr cs) = AtProvider cr.
Proof. reflexivity. Qed.

(** The name Create resolves: the external name when there is one, the
    resource's own name otherwise. *)
Lemma req_Name_GenerateDatabase name p create h :
  godo.req_Name (godo.encode (dodb.GenerateDatabase name p create) h) = name.
Proof. reflexivity. Qed.

(** What Create returns once the remote create call has answered. *)
Lemma Create_after_remote_call c cr w name :
  name = (if negb (bool_decide (meta.GetExternalName cr = ""))
          then meta.GetExternalName cr else GetName cr) →
  name ≠ "" →
  let req := godo.encode
               (dodb.GenerateDatabase name (ForProvider cr) godo.emptyCreateRequest)
               (heap w) in
  (∀ e, (Databases_Create c req).2 = Some e →
     (Create c (DatabaseCluster cr) w).1.1
     = Returned (emptyCreation, Some (withMessage e errDBCreateFailed)))
  ∧ ((Databases_Create c req).2 = None → (Databases_Create c req).1.1 = None →
     (Create c (DatabaseCluster cr) w).1.1 = Returned (emptyCreation, None)).
Proof.
  intros Hname Hne req. subst req. unfold Create.
  rewrite GetExternalName_SetConditions. cbn [GetName SetConditions withConditions ObjectName ForProvider].
  change (ObjectName cr) with (GetName cr). rewrite <- Hname.
  rewrite bool_decide_eq_false_2 by done.
  destruct (Databases_Create c _) as [[db response] err]. simpl.
  split.
  - intros e ->. destruct (receive db _) as [[d|] w']; reflexivity.
  - intros -> ->. reflexivity.
Qed.

Lemma calls_receive d w : calls (receive d w).2 = calls w.
Proof.
  destruct d as [j|]; simpl; [|done].
  by destruct (godo.decode j (heap w)).
Qed.

Lemma newCalls_eq w w' l : calls w' = calls w ++ l → newCalls w w' = l.
Proof. unfold newCalls. intros ->. by rewrite drop_app_length. Qed.

(** The calls Observe makes on a resource with an external name: one fetch,
    keyed by the external name, and after it at most one object-store
    update. *)
Lemma Observe_calls c cr w :
  meta.GetExternalName cr ≠ "" →
  ∃ rest, newCalls w (Observe c (DatabaseCluster cr) w).2
          = CallGet (meta.GetExternalName cr) :: rest
          ∧ (rest = [] ∨ ∃ cr', rest = [CallKubeUpdate cr']).
Proof.
  intros Hen. unfold Observe. rewrite bool_decide_eq_false_2 by done.
  destruct (Databases_Get c _) as [[observed response] err].
  pose proof (calls_receive observed (record (CallGet (meta.GetExternalName cr)) w))
    as Hrecv.
  destruct (receive observed _) as [obs w1].
  unfold record in Hrecv. simpl in Hrecv.
  destruct err as [e|]; simpl.
  { exists []. split; [by apply newCalls_eq | by left]. }
  destruct (DeepCopy _ _) as [currentSpec h1].
  destruct obs as [obs|]; unfold withHeap, record; simpl.
  2: { exists []. split; [by apply newCalls_eq | by left]. }
  destruct (dodb.LateInitializeSpec _ _ _) as [p h2]. simpl.
  destruct (negb _); simpl.
  - eexists. split; [|right; eauto].
    destruct (kube_Update c h2 _); simpl; apply newCalls_eq; simpl;
      by rewrite Hrecv, <- app_assoc.
  - exists []. split; [by apply newCalls_eq | by left].
Qed.

(** What Delete does on a Database Cluster whose observed identifier is set:
    one delete call keyed by that identifier, and the remote error, unless
    ignored, wrapped with the deletion tag. *)
Lemma Delete_with_ID c cr w id :
  ID (AtProvider cr) = Some id →
  Delete c (DatabaseCluster cr) w
  = (Returned (Wrap (clients.IgnoreNotFound (Databases_Delete c id).2
                       (Databases_Delete c id).1) errDBDeleteFailed),
     DatabaseCluster (SetConditions cr [xpv1.Deleting]),
     record (CallDelete id) w).
Proof.
  intros Hid. unfold Delete. rewrite AtProvider_SetConditions, Hid.
  by destruct (Databases_Delete c id).
Qed.

(** C1 (the code departs from the claim).  A Create whose remote call
    answers with a nil database and a nil error returns a nil error: the
    guard sends it to the failure return, where wrapping a nil error gives
    nil.  The create call has been made and no external name is bound. *)
Theorem Create_nil_result_nil_error_returns_nil :
  let r := Create examples.silentClient
             (DatabaseCluster (examples.cluster "db1" None None))
             examples.emptyWorld in
  r.1.1 = Returned (emptyCreation, None)
  ∧ (∃ req, calls r.2 = [CallCreate req] ∧ godo.req_Name req = "db1")
  ∧ (∃ cr', r.1.2 = DatabaseCluster cr' ∧ meta.GetExternalName cr' = "").
Proof.
  vm_compute. split; [reflexivity|]. split; eexists; split; reflexivity.
Qed.

(** C2 (as the code has it).  Observe passes the external-name annotation to
    every fetch it makes, and makes one whenever the annotation is set.
    Delete passes the observed identifier (Status.AtProvider.ID) to every
    delete call it makes, whatever the annotation says; its key is the
    external name only when the two stored identifiers coincide. *)
Theorem remote_call_keys c cr w :
  (∀ id, CallGet id ∈ newCalls w (Observe c (DatabaseCluster cr) w).2 →
     id = meta.GetExternalName cr)
  ∧ (meta.GetExternalName cr ≠ "" →
     CallGet (meta.GetExternalName cr)
       ∈ newCalls w (Observe c (DatabaseCluster cr) w).2)
  ∧ (∀ id, CallDelete id ∈ newCalls w (Delete c (DatabaseCluster cr) w).2 →
     ID (AtProvider cr) = Some id)
  ∧ (∀ id, ID (AtProvider cr) = Some id →
     newCalls w (Delete c (DatabaseCluster cr) w).2 = [CallDelete id])
  ∧ (ID (AtProvider cr) = Some (meta.GetExternalName cr) →
     newCalls w (Delete c (DatabaseCluster cr) w).2
     = [CallDelete (meta.GetExternalName cr)]).
Proof.
  assert (Hdel : ∀ id, ID (AtProvider cr) = Some id →
            newCalls w (Delete c (DatabaseCluster cr) w).2 = [CallDelete id]).
  { intros id Hid. rewrite (Delete_with_ID c cr w id Hid). simpl.
    by apply newCalls_eq. }
  split; [|split; [|split; [|split]]].
  - intros id Hin. destruct (decide (meta.GetExternalName cr = "")) as [He|He].
    + unfold Observe in Hin. rewrite bool_decide_eq_true_2 in Hin by done.
      simpl in Hin. rewrite newCalls_same in Hin. by apply elem_of_nil in Hin.
    + destruct (Observe_calls c cr w He) as (rest & Heq & Hrest).
      rewrite Heq in Hin. apply elem_of_cons in Hin as [Hin|Hin]; [congruence|].
      destruct Hrest as [->|[cr' ->]].
      * by apply elem_of_nil in Hin.
      * apply list_elem_of_singleton in Hin. discriminate.
  - intros He. destruct (Observe_calls c cr w He) as (rest & -> & _).
    apply elem_of_cons. by left.
  - intros id Hin. destruct (ID (AtProvider cr)) as [id'|] eqn:Hid.
    + rewrite (Hdel id' eq_refl) in Hin.
      apply list_elem_of_singleton in Hin. congruence.
    + unfold Delete in Hin. rewrite AtProvider_SetConditions, Hid in Hin.
      simpl in Hin. rewrite newCalls_same in Hin. by apply elem_of_nil in Hin.
  - exact Hdel.
  - apply Hdel.
Qed.

Lemma remote_call_keys_witness :
  meta.GetExternalName (examples.cluster "db1" (Some "abc") (Some "abc")) ≠ ""
  ∧ CallGet "abc"
      ∈ newCalls examples.emptyWorld
          (Observe examples.healthyClient
             (DatabaseCluster (examples.cluster "db1" (Some "abc") (Some "abc")))
             examples.emptyWorld).2.
Proof.
  assert (He : meta.GetExternalName
                 (examples.cluster "db1" (Some "abc") (Some "abc")) ≠ "")
    by (vm_compute; discriminate).
  split; [exact He|].
  exact (proj1 (proj2 (remote_call_keys examples.healthyClient
                         (examples.cluster "db1" (Some "abc") (Some "abc"))
                         examples.emptyWorld)) He).
Defined.

(** C2, the claim as stated fails: with the annotation "abc" and the
    observed identifier "xyz", Delete asks the service to delete "xyz". *)
Lemma Delete_key_is_not_external_name :
  meta.GetExternalName (examples.cluster "db1" (Some "abc") (Some "xyz")) = "abc"
  ∧ calls (Delete examples.healthyClient
             (DatabaseCluster (examples.cluster "db1" (Some "abc") (Some "xyz")))
             examples.emptyWorld).2
    = [CallDelete "xyz"].
Proof. vm_compute. done. Qed.



(** C4.  Delete dereferences Status.AtProvider.ID without a nil check: on a
    Database Cluster whose observed identifier is nil it panics, after the
    Deleting condition is set and before any call is made; whenever the
    identifier is set it returns.  So Delete returns exactly when the
    pointer is non-nil. *)
Theorem Delete_nil_ID_panics c cr w :
  (ID (AtProvider cr) = None →
     Delete c (DatabaseCluster cr) w
     = (Panicked, DatabaseCluster (SetConditions cr [xpv1.Deleting]), w))
  ∧ (∀ id, ID (AtProvider cr) = Some id →
     ∃ err, (Delete c (DatabaseCluster cr) w).1.1 = Returned err)
  ∧ ((Delete c (DatabaseCluster cr) w).1.1 = Panicked ↔
     ID (AtProvider cr) = None).
Proof.
  split; [|split].
  - intros Hid. unfold Delete. by rewrite AtProvider_SetConditions, Hid.
  - intros id Hid. rewrite (Delete_with_ID c cr w id Hid). eauto.
  - destruct (ID (AtProvider cr)) as [id|] eqn:Hid.
    + rewrite (Delete_with_ID c cr w id Hid). simpl. split; discriminate.
    + unfold Delete. rewrite AtProvider_SetConditions, Hid. done.
Qed.

Lemma Delete_nil_ID_panics_witness :
  ID (AtProvider (examples.cluster "db1" (Some "abc") None)) = None
  ∧ (Delete examples.healthyClient
       (DatabaseCluster (examples.cluster "db1" (Some "abc") None))
       examples.emptyWorld).1.1 = Panicked.
Proof.
  split; [reflexivity|].
  rewrite (proj1 (Delete_nil_ID_panics examples.healthyClient
                    (examples.cluster "db1" (Some "abc") None)
                    examples.emptyWorld) eq_refl).
  reflexivity.
Defined.

(** C7.  Create on a Database Cluster sends the create request under the
    external-name annotation when that is non-empty and under the
    resource's own name otherwise; when both are empty it returns the fixed
    "name required" error and makes no call. *)
Theorem Create_target_name c cr w :
  (meta.GetExternalName cr ≠ "" →
     ∃ req rest,
       newCalls w (Create c (DatabaseCluster cr) w).2 = CallCreate req :: rest
       ∧ godo.req_Name req = meta.GetExternalName cr)
  ∧ (meta.GetExternalName cr = "" → GetName cr ≠ "" →
     ∃ req rest,
       newCalls w (Create c (DatabaseCluster cr) w).2 = CallCreate req :: rest
       ∧ godo.req_Name req = GetName cr)
  ∧ (meta.GetExternalName cr = "" → GetName cr = "" →
     (Create c (DatabaseCluster cr) w).1.1
       = Returned (emptyCreation, New errDBNameRequired)
     ∧ (Create c (DatabaseCluster cr) w).2 = w
     ∧ newCalls w (Create c (DatabaseCluster cr) w).2 = []).
Proof.
  assert (Hsent : ∀ name,
    name = (if negb (bool_decide (meta.GetExternalName cr = ""))
            then meta.GetExternalName cr else GetName cr) →
    name ≠ "" →
    ∃ req rest,
      newCalls w (Create c (DatabaseCluster cr) w).2 = CallCreate req :: rest
      ∧ godo.req_Name req = name).
  { intros name Hname Hne. unfold Create.
    rewrite GetExternalName_SetConditions.
    cbn [GetName SetConditions withConditions ObjectName ForProvider].
    change (ObjectName cr) with (GetName cr). rewrite <- Hname.
    rewrite bool_decide_eq_false_2 by done.
    destruct (Databases_Create c _) as [[db response] err].
    match goal with
    | |- context [receive db (record (CallCreate ?r) w)] =>
        pose proof (calls_receive db (record (CallCreate r) w)) as Hrecv;
        exists r
    end.
    destruct (receive db _) as [d w1]. unfold record in Hrecv.
    simpl in Hrecv.
    destruct err as [e|], d as [d|]; simpl;
      try (exists []; split; [by apply newCalls_eq | reflexivity]).
    destruct (WriteConnectionSecretToReference cr); simpl.
    - eexists. split; [|reflexivity]. apply newCalls_eq. unfold record. simpl.
      by rewrite Hrecv, <- app_assoc.
    - exists []. split; [by apply newCalls_eq | reflexivity]. }
  split; [|split].
  - intros He. apply Hsent; [|done]. by rewrite bool_decide_eq_false_2.
  - intros He Hn. apply Hsent; [|done]. by rewrite bool_decide_eq_true_2.
  - intros He Hn. unfold Create. rewrite GetExternalName_SetConditions.
    cbn [GetName SetConditions withConditions ObjectName].
    change (ObjectName cr) with (GetName cr).
    rewrite He, Hn. simpl. split; [done|]. split; [done|]. apply newCalls_same.
Qed.

Lemma Create_target_name_witness :
  (meta.GetExternalName (examples.cluster "" None None) = ""
   ∧ GetName (examples.cluster "" None None) = "")
  ∧ (Create examples.healthyClient
       (DatabaseCluster (examples.cluster "" None None))
       examples.emptyWorld).1.1
    = Returned (emptyCreation, New errDBNameRequired).
Proof.
  split; [split; reflexivity|].
  exact (proj1 (proj2 (proj2 (Create_target_name examples.healthyClient
                                (examples.cluster "" None None)
                                examples.emptyWorld)) eq_refl eq_refl)).
Defined.

(** C8.  Observe on a Database Cluster whose external-name annotation is
    empty returns exists=false with a nil error; the resource and the world
    are as they were, so no call is made. *)
Theorem Observe_without_external_name c cr w :
  meta.GetExternalName cr = "" →
  Observe c (DatabaseCluster cr) w
  = (Returned (mkExternalObservation false false, None), DatabaseCluster cr, w)
  ∧ newCalls w (Observe c (DatabaseCluster cr) w).2 = [].
Proof.
  intros He. unfold Observe. rewrite bool_decide_eq_true_2 by done.
  split; [reflexivity|]. apply newCalls_same.
Qed.

Lemma Observe_without_external_name_witness :
  Observe examples.healthyClient
    (DatabaseCluster (examples.cluster "db1" None None)) examples.emptyWorld
  = (Returned (mkExternalObservation false false, None),
     DatabaseCluster (examples.cluster "db1" None None), examples.emptyWorld).
Proof.
  exact (proj1 (Observe_without_external_name examples.healthyClient
                  (examples.cluster "db1" None None) examples.emptyWorld
                  eq_refl)).
Defined.

(** C9.  Delete on a Database Cluster (whose observed identifier is set, so
    that the delete call is made): a not-found response gives a nil error;
    any other failure [e] of the call gives [e] wrapped with the fixed
    deletion tag; a call that succeeds gives a nil error. *)
Theorem Delete_not_found_is_success c cr w id :
  ID (AtProvider cr) = Some id →
  (clients.isNotFound (Databases_Delete c id).1 = true →
     (Delete c (DatabaseCluster cr) w).1.1 = Returned None)
  ∧ (∀ e, clients.isNotFound (Databases_Delete c id).1 = false →
       (Databases_Delete c id).2 = Some e →
       (Delete c (DatabaseCluster cr) w).1.1
         = Returned (Some (withMessage e errDBDeleteFailed))
       ∧ Error (withMessage e errDBDeleteFailed)
         = ("deletion of Database Cluster resource has failed: " +:+ Error e)%string)
  ∧ (clients.isNotFound (Databases_Delete c id).1 = false →
     (Databases_Delete c id).2 = None →
     (Delete c (DatabaseCluster cr) w).1.1 = Returned None)
  ∧ newCalls w (Delete c (DatabaseCluster cr) w).2 = [CallDelete id].
Proof.
  intros Hid. rewrite (Delete_with_ID c cr w id Hid). simpl.
  unfold clients.IgnoreNotFound.
  split; [|split; [|split]].
  - by intros ->.
  - intros e -> ->. split; reflexivity.
  - by intros -> ->.
  - by apply newCalls_eq.
Qed.

Lemma Delete_not_found_is_success_witness :
  ID (AtProvider (examples.cluster "db1" (Some "abc") (Some "abc"))) = Some "abc"
  ∧ (Delete examples.notFoundClient
       (DatabaseCluster (examples.cluster "db1" (Some "abc") (Some "abc")))
       examples.emptyWorld).1.1 = Returned None
  ∧ (Delete examples.brokenClient
       (DatabaseCluster (examples.cluster "db1" (Some "abc") (Some "abc")))
       examples.emptyWorld).1.1
    = Returned (Some (withMessage (fundamental "500 server error")
                        errDBDeleteFailed)).
Proof.
  split; [reflexivity|]. split.
  - exact (proj1 (Delete_not_found_is_success examples.notFoundClient
                    (examples.cluster "db1" (Some "abc") (Some "abc"))
                    examples.emptyWorld "abc" eq_refl) eq_refl).
  - exact (proj1 (proj1 (proj2 (Delete_not_found_is_success examples.brokenClient
                    (examples.cluster "db1" (Some "abc") (Some "abc"))
                    examples.emptyWorld "abc" eq_refl))
                    (fundamental "500 server error") eq_refl eq_refl)).
Defined.

(** What an Observe that returns without error has observed. *)
Lemma Observe_returned_observation c cr w (obs : ExternalObservation) :
  meta.GetExternalName cr ≠ "" →
  (Observe c (DatabaseCluster cr) w).1.1 = Returned (obs, None) →
  ((Databases_Get c (meta.GetExternalName cr)).2 = None →
     ResourceExists obs = true ∧ ResourceUpToDate obs = true)
  ∧ (∀ e, (Databases_Get c (meta.GetExternalName cr)).2 = Some e →
       ResourceExists obs = false ∧ ResourceUpToDate obs = false
       ∧ clients.isNotFound (Databases_Get c (meta.GetExternalName cr)).1.2 = true).
Proof.
  intros He. unfold Observe. rewrite bool_decide_eq_false_2 by done.
  destruct (Databases_Get c _) as [[observed response] err].
  destruct (receive observed _) as [o w1]. simpl.
  destruct err as [e|]; simpl.
  - unfold clients.IgnoreNotFound.
    destruct (clients.isNotFound response) eqn:Hnf; simpl; [|discriminate].
    intros [= <-]. split; [discriminate|]. by intros e' _.
  - destruct (DeepCopy _ _) as [currentSpec h1].
    destruct o as [o|]; simpl; [|discriminate].
    destruct (dodb.LateInitializeSpec _ _ _) as [p h2]. simpl.
    destruct (negb _); simpl.
    + destruct (kube_Update c h2 _); simpl; [discriminate|].
      intros [= <-]. split; [done|discriminate].
    + intros [= <-]. split; [done|discriminate].
Qed.

(** A not-found fetch makes Observe return the zero observation and no
    error, with the resource as it was. *)
Lemma Observe_not_found c cr w (e : goerror) :
  meta.GetExternalName cr ≠ "" →
  (Databases_Get c (meta.GetExternalName cr)).2 = Some e →
  clients.isNotFound (Databases_Get c (meta.GetExternalName cr)).1.2 = true →
  (Observe c (DatabaseCluster cr) w).1
  = (Returned (mkExternalObservation false false, None), DatabaseCluster cr).
Proof.
  intros He. unfold Observe. rewrite bool_decide_eq_false_2 by done.
  destruct (Databases_Get c _) as [[observed response] err]. cbn [fst snd].
  intros -> Hnf. destruct (receive observed _) as [o w1]. cbn [fst snd].
  unfold clients.IgnoreNotFound. by rewrite Hnf.
Qed.

(** A fetch that returns a database, against an object store that accepts
    every update, makes Observe return exists=true and upToDate=true. *)
Lemma Observe_found c cr w (j : godo.DatabaseJSON)
  (response : option godo.Response) :
  meta.GetExternalName cr ≠ "" →
  Databases_Get c (meta.GetExternalName cr) = (Some j, response, None) →
  (∀ h cr1, kube_Update c h cr1 = None) →
  (Observe c (DatabaseCluster cr) w).1.1
  = Returned (mkExternalObservation true true, None).
Proof.
  intros He Hg Hk. unfold Observe. rewrite bool_decide_eq_false_2 by done.
  rewrite Hg. unfold receive.
  destruct (godo.decode j _) as [db h0]. cbn [fst snd].
  destruct (DeepCopy _ _) as [currentSpec h1].
  destruct (dodb.LateInitializeSpec _ _ _) as [p h2]. cbn [fst snd].
  destruct (negb _); [rewrite Hk|]; reflexivity.
Qed.

(** C10 (as the code has it).  An Observe on a resource with an external
    name that returns without error reports exists=true and upToDate=true
    whenever the fetch itself returned no error, whatever the desired and
    the observed configuration are; when the fetch returned an error, the
    error was a not-found that Observe swallowed, and the observation is
    the zero value: exists=false, upToDate=false.  Both cases occur: a fetch
    that fails with not-found makes Observe return without error, with the
    zero observation and the resource untouched; a fetch that returns a
    database makes Observe return exists=true and upToDate=true with no
    error, as long as the object store accepts the update of late-initialized
    parameters. *)
Theorem Observe_up_to_date_when_found c cr w :
  meta.GetExternalName cr ≠ "" →
  (∀ obs : ExternalObservation,
     (Observe c (DatabaseCluster cr) w).1.1 = Returned (obs, None) →
     ((Databases_Get c (meta.GetExternalName cr)).2 = None →
        ResourceExists obs = true ∧ ResourceUpToDate obs = true)
     ∧ (∀ e, (Databases_Get c (meta.GetExternalName cr)).2 = Some e →
          ResourceExists obs = false ∧ ResourceUpToDate obs = false
          ∧ clients.isNotFound
              (Databases_Get c (meta.GetExternalName cr)).1.2 = true))
  ∧ (∀ e, (Databases_Get c (meta.GetExternalName cr)).2 = Some e →
       clients.isNotFound (Databases_Get c (meta.GetExternalName cr)).1.2 = true →
       (Observe c (DatabaseCluster cr) w).1
       = (Returned (mkExternalObservation false false, None),
          DatabaseCluster cr))
  ∧ (∀ (j : godo.DatabaseJSON) (response : option godo.Response),
       Databases_Get c (meta.GetExternalName cr) = (Some j, response, None) →
       (∀ h cr1, kube_Update c h cr1 = None) →
       (Observe c (DatabaseCluster cr) w).1.1
       = Returned (mkExternalObservation true true, None)).
Proof.
  intros He. split; [|split].
  - intros obs Hret. exact (Observe_returned_observation c cr w obs He Hret).
  - intros e Hg Hnf. by apply (Observe_not_found c cr w e).
  - intros j response Hg Hk. by apply (Observe_found c cr w j response).
Qed.

Lemma Observe_up_to_date_when_found_witness :
  meta.GetExternalName (examples.cluster "db1" (Some "abc") (Some "abc")) ≠ ""
  ∧ v1alpha1.Size (ForProvider (examples.cluster "db1" (Some "abc") (Some "abc")))
    ≠ godo.SizeSlug examples.remoteDatabase
  ∧ (Observe examples.healthyClient
       (DatabaseCluster (examples.cluster "db1" (Some "abc") (Some "abc")))
       examples.emptyWorld).1.1
    = Returned (mkExternalObservation true true, None)
  ∧ (Observe examples.notFoundClient
       (DatabaseCluster (examples.cluster "db1" (Some "abc") (Some "abc")))
       examples.emptyWorld).1
    = (Returned (mkExternalObservation false false, None),
       DatabaseCluster (examples.cluster "db1" (Some "abc") (Some "abc"))).
Proof.
  assert (He : meta.GetExternalName
                 (examples.cluster "db1" (Some "abc") (Some "abc")) ≠ "")
    by (vm_compute; discriminate).
  split; [exact He|]. split; [vm_compute; discriminate|]. split.
  - refine (proj2 (proj2 (Observe_up_to_date_when_found examples.healthyClient
                            (examples.cluster "db1" (Some "abc") (Some "abc"))
                            examples.emptyWorld He))
              examples.remoteDatabase (Some (godo.mkResponse 200)) eq_refl _).
    intros h cr1. reflexivity.
  - exact (proj1 (proj2 (Observe_up_to_date_when_found examples.notFoundClient
                           (examples.cluster "db1" (Some "abc") (Some "abc"))
                           examples.emptyWorld He))
             (fundamental "404 not found") eq_refl eq_refl).
Defined.

(** C10, the claim as stated fails: on a resource whose external name is
    "abc" and a service that answers the fetch with not-found, Observe
    returns without error and reports upToDate=false. *)
Lemma Observe_not_found_is_not_up_to_date :
  meta.GetExternalName (examples.cluster "db1" (Some "abc") (Some "abc")) = "abc"
  ∧ (Observe examples.notFoundClient
       (DatabaseCluster (examples.cluster "db1" (Some "abc") (Some "abc")))
       examples.emptyWorld).1.1
    = Returned (mkExternalObservation false false, None).
Proof. vm_compute. done. Qed.

End lifecycle.

(** * Further properties of the code *)

(** ** Late initialization, continued *)
Section late_initialize_more.
Import v1alpha1.
Implicit Types (p : DODatabaseClusterParameters) (observed : godo.Database)
  (h : Heap).

(** The two branches of LateInitializeSpec. *)
Lemma LateInitializeSpec_keep p observed h :
  len (Tags p) ≠ 0 ∨ len (godo.Tags observed) = 0 →
  dodb.LateInitializeSpec p observed h
  = (mkParameters (Engine p)
       (clients.LateInitializeString (Version p) (godo.EngineSlug observed))
       (NumNodes p) (Size p) (Region p)
       (clients.LateInitializeString (PrivateNetworkUUID p)
          (godo.PrivateNetworkUUID observed))
       (Tags p), h).
Proof.
  intros Hc. unfold dodb.LateInitializeSpec.
  destruct Hc as [Hp|Ho].
  - by rewrite (bool_decide_eq_false_2 _ Hp).
  - rewrite (bool_decide_eq_true_2 _ Ho). by rewrite andb_false_r.
Qed.

Lemma LateInitializeSpec_copy p observed h :
  len (Tags p) = 0 → len (godo.Tags observed) ≠ 0 →
  dodb.LateInitializeSpec p observed h
  = (mkParameters (Engine p)
       (clients.LateInitializeString (Version p) (godo.EngineSlug observed))
       (NumNodes p) (Size p) (Region p)
       (clients.LateInitializeString (PrivateNetworkUUID p)
          (godo.PrivateNetworkUUID observed))
       (make (len (godo.Tags observed)) h).1,
     copy (make (len (godo.Tags observed)) h).1 (godo.Tags observed)
       (make (len (godo.Tags observed)) h).2).
Proof.
  intros Hp Ho. unfold dodb.LateInitializeSpec.
  rewrite (bool_decide_eq_true_2 _ Hp), (bool_decide_eq_false_2 _ Ho).
  reflexivity.
Qed.

Lemma LateInitializeString_idem s from :
  clients.LateInitializeString (clients.LateInitializeString s from) from
  = clients.LateInitializeString s from.
Proof.
  destruct s as [v|]; simpl; [done|].
  case_bool_decide as Hf; simpl; [|done]. by rewrite bool_decide_eq_true_2.
Qed.

(** X1. LateInitializeSpec is idempotent: run again with the same observed
    database on its own result, it changes neither the parameters nor the
    heap (the tag list it copied is no longer empty, so it is not copied a
    second time). *)
Theorem LateInitializeSpec_idempotent p observed h :
  dodb.LateInitializeSpec (dodb.LateInitializeSpec p observed h).1 observed
    (dodb.LateInitializeSpec p observed h).2
  = dodb.LateInitializeSpec p observed h.
Proof.
  destruct (decide (len (Tags p) = 0)) as [Hp|Hp];
    [destruct (decide (len (godo.Tags observed) = 0)) as [Ho|Ho]|].
  - rewrite (LateInitializeSpec_keep p observed h) by auto.
    rewrite LateInitializeSpec_keep by auto. simpl.
    by rewrite !LateInitializeString_idem.
  - rewrite (LateInitializeSpec_copy p observed h) by auto.
    rewrite LateInitializeSpec_keep by (left; simpl; done). simpl.
    by rewrite !LateInitializeString_idem.
  - rewrite (LateInitializeSpec_keep p observed h) by auto.
    rewrite LateInitializeSpec_keep by auto. simpl.
    by rewrite !LateInitializeString_idem.
Qed.

(** When every optional field of the parameters is already set (version and
    private-network id non-nil, tag list non-empty), LateInitializeSpec
    returns the parameters and the heap exactly as they were. *)
Lemma LateInitializeSpec_noop_when_set p observed h (v u : string) :
  Version p = Some v → PrivateNetworkUUID p = Some u → len (Tags p) ≠ 0 →
  dodb.LateInitializeSpec p observed h = (p, h).
Proof.
  intros Hv Hu Ht. rewrite LateInitializeSpec_keep by auto.
  rewrite Hv, Hu. simpl. rewrite <- Hv, <- Hu. by destruct p.
Qed.

(** The heap after make and copy: the new array is long enough for the new
    slice, and every slice that was valid is valid still, with the same
    elements. *)
Lemma make_copy_heap h (src : slice) :
  let t := (make (len src) h).1 in
  let h' := copy t src (make (len src) h).2 in
  valid h' t
  ∧ (∀ s, valid h s → valid h' s ∧ contents h' s = contents h s).
Proof.
  unfold make. simpl. set (l := fresh (dom h)).
  assert (Hl : l ∉ dom h) by apply is_fresh.
  split.
  - rewrite lookup_alter_eq, lookup_insert_eq. simpl. eexists. split; [done|].
    rewrite length_app, length_drop, length_replicate. lia.
  - intros [|l' n'] Hs; simpl; [done|]. destruct Hs as (a & Ha & Hle).
    assert (l ≠ l') by (intros ->; apply Hl, elem_of_dom; eauto).
    rewrite lookup_alter_ne, lookup_insert_ne by done. rewrite Ha. eauto.
Qed.

(** X2. LateInitializeSpec keeps slices valid: the tag list of the result is
    a valid slice of the resulting heap, and every slice that was valid
    before the call is valid after it and holds the same elements (the call
    only ever allocates). *)
Theorem LateInitializeSpec_preserves_validity p observed h :
  valid h (Tags p) →
  valid (dodb.LateInitializeSpec p observed h).2
    (Tags (dodb.LateInitializeSpec p observed h).1)
  ∧ (∀ s, valid h s →
       valid (dodb.LateInitializeSpec p observed h).2 s
       ∧ contents (dodb.LateInitializeSpec p observed h).2 s = contents h s).
Proof.
  intros Hp.
  destruct (decide (len (Tags p) = 0)) as [H0|H0];
    [destruct (decide (len (godo.Tags observed) = 0)) as [Ho|Ho]|].
  - rewrite LateInitializeSpec_keep by auto. simpl. auto.
  - rewrite LateInitializeSpec_copy by auto. simpl.
    apply (make_copy_heap h (godo.Tags observed)).
  - rewrite LateInitializeSpec_keep by auto. simpl. auto.
Qed.

Lemma LateInitializeSpec_preserves_validity_witness :
  valid examples.tagHeap (Tags examples.parameters)
  ∧ valid (dodb.LateInitializeSpec examples.parameters
             examples.observedDatabase examples.tagHeap).2
      (Tags (dodb.LateInitializeSpec examples.parameters
               examples.observedDatabase examples.tagHeap).1).
Proof.
  split; [exact I|].
  exact (proj1 (LateInitializeSpec_preserves_validity examples.parameters
                  examples.observedDatabase examples.tagHeap I)).
Defined.

(** X3. The tag list LateInitializeSpec installs is a copy, not an alias:
    once the observed tags have been copied, overwriting the observed tag
    array in place does not change the desired tags, and overwriting the
    desired tag array does not change the observed tags. *)
Theorem LateInitializeSpec_copy_independent p observed h (src : slice) :
  valid h (godo.Tags observed) →
  len (Tags p) = 0 → len (godo.Tags observed) ≠ 0 →
  contents (copy (godo.Tags observed) src (dodb.LateInitializeSpec p observed h).2)
    (Tags (dodb.LateInitializeSpec p observed h).1)
  = contents h (godo.Tags observed)
  ∧ contents (copy (Tags (dodb.LateInitializeSpec p observed h).1) src
                (dodb.LateInitializeSpec p observed h).2)
      (godo.Tags observed)
    = contents h (godo.Tags observed).
Proof.
  intros Hv Hp Ho. rewrite LateInitializeSpec_copy by auto.
  cbn [fst snd Tags].
  destruct (make_copy_spec h _ Hv) as (l & h1 & Hmk & Hfresh & Hcont & Hold).
  rewrite Hmk. cbn [fst snd].
  destruct (godo.Tags observed) as [|l0 n0] eqn:Htags; [done|].
  destruct Hv as (a & Ha & Hle).
  assert (Hl0 : l0 ∈ dom h) by (apply elem_of_dom; eauto).
  assert (l ≠ l0) by (intros ->; contradiction).
  simpl len in *. split.
  - rewrite <- Hcont. unfold contents at 1.
    unfold copy at 1. by rewrite lookup_alter_ne.
  - unfold contents at 1. unfold copy at 1. rewrite lookup_alter_ne by done.
    rewrite (Hold l0 Hl0). reflexivity.
Qed.

Lemma LateInitializeSpec_copy_independent_witness :
  valid examples.tagHeap (godo.Tags examples.observedDatabase)
  ∧ contents
      (copy (godo.Tags examples.observedDatabase) (mkSlice 1%positive 0)
         (dodb.LateInitializeSpec examples.parameters
            examples.observedDatabase examples.tagHeap).2)
      (Tags (dodb.LateInitializeSpec examples.parameters
               examples.observedDatabase examples.tagHeap).1)
    = contents examples.tagHeap (godo.Tags examples.observedDatabase).
Proof.
  assert (Hv : valid examples.tagHeap (godo.Tags examples.observedDatabase)).
  { exists ["a"; "b"]. split; [reflexivity | simpl; lia]. }
  split; [exact Hv|].
  refine (proj1 (LateInitializeSpec_copy_independent examples.parameters
                   examples.observedDatabase examples.tagHeap
                   (mkSlice 1%positive 0) Hv eq_refl _)).
  simpl. lia.
Defined.

End late_initialize_more.

(** ** Create, continued *)
Section create_more.
Import errors v1alpha1 resource managed controller requests.
Implicit Types (c : dbExternal) (cr : DODatabaseCluster) (w : World).

Lemma receive_None w : receive None w = (None, w).
Proof. reflexivity. Qed.

Lemma receive_Some (j : godo.DatabaseJSON) w :
  ∃ db, (receive (Some j) w).1 = Some db
        ∧ godo.ID db = godo.ID j
        ∧ godo.Status db = godo.Status j
        ∧ godo.EngineSlug db = godo.EngineSlug j
        ∧ godo.PrivateNetworkUUID db = godo.PrivateNetworkUUID j.
Proof.
  unfold receive, godo.decode. destruct (godo.Tags j); simpl; eauto 10.
Qed.

(** Create on a Database Cluster whose name resolves, step by step. *)
Lemma Create_unfold c cr w :
  targetName cr ≠ "" →
  Create c (DatabaseCluster cr) w
  = let cr1 := SetConditions cr [xpv1.Creating] in
    let req := createRequest cr (heap w) in
    let r := receive (Databases_Create c req).1.1 (record (CallCreate req) w) in
    match (Databases_Create c req).2, r.1 with
    | None, Some db =>
        let cr2 := meta.SetExternalName cr1 (godo.ID db) in
        match WriteConnectionSecretToReference cr with
        | Some _ =>
            (Returned (mkExternalCreation (GenerateConnectionDetails c db), None),
             DatabaseCluster cr2,
             record (CallConnectionDetails (godo.ID db)) r.2)
        | None => (Returned (emptyCreation, None), DatabaseCluster cr2, r.2)
        end
    | _, _ =>
        (Returned (emptyCreation, Wrap (Databases_Create c req).2 errDBCreateFailed),
         DatabaseCluster cr1, r.2)
    end.
Proof.
  intros Hne. unfold Create. rewrite GetExternalName_SetConditions.
  cbn [GetName SetConditions withConditions ObjectName ForProvider].
  change (ObjectName cr) with (GetName cr).
  change (if negb (bool_decide (meta.GetExternalName cr = ""))
          then meta.GetExternalName cr else GetName cr) with (targetName cr).
  rewrite bool_decide_eq_false_2 by done.
  change (godo.encode (dodb.GenerateDatabase (targetName cr) (ForProvider cr)
            godo.emptyCreateRequest) (heap w)) with (createRequest cr (heap w)).
  destruct (Databases_Create c _) as [[db response] err]. simpl.
  destruct (receive db _) as [d w1]. simpl.
  destruct err as [e|], d as [d|]; try reflexivity.
  simpl. destruct (WriteConnectionSecretToReference cr); reflexivity.
Qed.

Lemma Create_no_name c cr w :
  targetName cr = "" →
  Create c (DatabaseCluster cr) w
  = (Returned (emptyCreation, New errDBNameRequired),
     DatabaseCluster (SetConditions cr [xpv1.Creating]), w).
Proof.
  intros Hn. unfold Create. rewrite GetExternalName_SetConditions.
  cbn [GetName SetConditions withConditions ObjectName ForProvider].
  change (ObjectName cr) with (GetName cr).
  change (if negb (bool_decide (meta.GetExternalName cr = ""))
          then meta.GetExternalName cr else GetName cr) with (targetName cr).
  by rewrite bool_decide_eq_true_2.
Qed.

Lemma calls_record_receive (d : option godo.DatabaseJSON) (k : Call) w :
  calls (receive d (record k w)).2 = calls w ++ [k].
Proof. by rewrite calls_receive. Qed.

Lemma GetExternalName_SetExternalName cr (id : string) :
  meta.GetExternalName (meta.SetExternalName cr id) = id.
Proof.
  unfold meta.GetExternalName, meta.SetExternalName. simpl.
  by rewrite lookup_insert_eq.
Qed.

(** A Create that succeeds leaves a Database Cluster whose external name is
    the ID of the database the service returned. *)
Lemma Create_success_binds_name_aux c cr w
  (j : godo.DatabaseJSON) (response : option godo.Response) :
  targetName cr ≠ "" →
  Databases_Create c (createRequest cr (heap w)) = (Some j, response, None) →
  ∃ cr', (Create c (DatabaseCluster cr) w).1.2 = DatabaseCluster cr'
         ∧ meta.GetExternalName cr' = godo.ID j.
Proof.
  intros Hn Hc. rewrite Create_unfold by done. cbv zeta. rewrite Hc.
  cbn [fst snd].
  destruct (receive_Some j (record (CallCreate (createRequest cr (heap w))) w))
    as (db & -> & Hid & _).
  destruct (WriteConnectionSecretToReference cr); cbn [fst snd];
    eexists; (split; [reflexivity|]);
    by rewrite GetExternalName_SetExternalName, Hid.
Qed.

Lemma Observe_without_name_aux c cr w :
  meta.GetExternalName cr = "" →
  (Observe c (DatabaseCluster cr) w).1.1
    = Returned (mkExternalObservation false false, None)
  ∧ newCalls w (Observe c (DatabaseCluster cr) w).2 = [].
Proof.
  intros He. unfold Observe. rewrite bool_decide_eq_true_2 by done.
  split; [reflexivity|]. apply newCalls_same.
Qed.

(** X4. Create on a Database Cluster sets the Creating condition before
    anything else: whatever happens next (missing name, remote failure,
    success), the resource Create leaves behind reports Ready = Creating,
    and its parameters, observed state and name are untouched. *)
Theorem Create_sets_Creating c cr w :
  ∃ cr', (Create c (DatabaseCluster cr) w).1.2 = DatabaseCluster cr'
         ∧ GetCondition cr' xpv1.TypeReady = xpv1.Creating
         ∧ ForProvider cr' = ForProvider cr
         ∧ AtProvider cr' = AtProvider cr
         ∧ GetName cr' = GetName cr.
Proof.
  pose proof (GetCondition_SetConditions (Conditions cr) xpv1.Creating) as Hc.
  destruct (decide (targetName cr = "")) as [Hn|Hn].
  - rewrite Create_no_name by done. simpl. eexists. split; [done|].
    repeat split. exact Hc.
  - rewrite Create_unfold by done. cbv zeta.
    destruct (Databases_Create c _) as [[d response] err]. cbn [fst snd].
    destruct (receive d _) as [[db|] w1], err as [e|];
      try destruct (WriteConnectionSecretToReference cr);
      simpl; eexists; (split; [done|]); repeat split; exact Hc.
Qed.

(** X5. When the create call succeeds, Create returns a nil error and binds
    the identifier the service assigned: the external-name annotation of the
    resource is the ID of the returned database, and every other annotation
    is kept. *)
Theorem Create_success_binds_external_name c cr w
  (j : godo.DatabaseJSON) (response : option godo.Response) :
  targetName cr ≠ "" →
  Databases_Create c (createRequest cr (heap w)) = (Some j, response, None) →
  ∃ ec cr',
    (Create c (DatabaseCluster cr) w).1 = (Returned (ec, None), DatabaseCluster cr')
    ∧ meta.GetExternalName cr' = godo.ID j
    ∧ Annotations cr'
      = <[meta.AnnotationKeyExternalName := godo.ID j]> (Annotations cr).
Proof.
  intros Hn Hc. rewrite Create_unfold by done. cbv zeta. rewrite Hc.
  cbn [fst snd].
  destruct (receive_Some j (record (CallCreate (createRequest cr (heap w))) w))
    as (db & -> & Hid & _).
  destruct (WriteConnectionSecretToReference cr); cbn [fst snd];
    eexists _, _; (split; [reflexivity|]);
    rewrite GetExternalName_SetExternalName, Hid; split; reflexivity.
Qed.

Lemma Create_success_binds_external_name_witness :
  targetName (examples.cluster "db1" None None) ≠ ""
  ∧ ∃ ec cr',
      (Create examples.healthyClient
         (DatabaseCluster (examples.cluster "db1" None None))
         examples.emptyWorld).1 = (Returned (ec, None), DatabaseCluster cr')
      ∧ meta.GetExternalName cr' = "abc".
Proof.
  assert (Hn : targetName (examples.cluster "db1" None None) ≠ "")
    by (vm_compute; discriminate).
  split; [exact Hn|].
  destruct (Create_success_binds_external_name examples.healthyClient
              (examples.cluster "db1" None None) examples.emptyWorld
              examples.remoteDatabase (Some (godo.mkResponse 201)) Hn eq_refl)
    as (ec & cr' & Hr & He & _).
  exists ec, cr'. split; [exact Hr | exact He].
Defined.

(** X6. When the create call fails, or answers without a database, Create
    binds nothing: apart from the Creating condition the resource is as it
    was (so its external name is unchanged), the create call is the only
    call made, and no connection details are returned. *)
Theorem Create_failure_binds_nothing c cr w :
  targetName cr ≠ "" →
  (Databases_Create c (createRequest cr (heap w))).2 ≠ None
  ∨ (Databases_Create c (createRequest cr (heap w))).1.1 = None →
  (Create c (DatabaseCluster cr) w).1
  = (Returned (emptyCreation,
               Wrap (Databases_Create c (createRequest cr (heap w))).2
                 errDBCreateFailed),
     DatabaseCluster (SetConditions cr [xpv1.Creating]))
  ∧ newCalls w (Create c (DatabaseCluster cr) w).2
    = [CallCreate (createRequest cr (heap w))].
Proof.
  intros Hn Hfail. rewrite Create_unfold by done. cbv zeta.
  pose proof (calls_record_receive
                (Databases_Create c (createRequest cr (heap w))).1.1
                (CallCreate (createRequest cr (heap w))) w) as Hcalls.
  destruct (Databases_Create c _) as [[d response] err]. cbn [fst snd] in *.
  destruct Hfail as [He| ->].
  - destruct err as [e|]; [|done].
    destruct (receive d _) as [[db|] w1]; cbn [fst snd] in *;
      (split; [reflexivity | by apply newCalls_eq]).
  - rewrite receive_None in *. cbn [fst snd] in *.
    destruct err; (split; [reflexivity | by apply newCalls_eq]).
Qed.

Lemma Create_failure_binds_nothing_witness :
  targetName (examples.cluster "db1" None None) ≠ ""
  ∧ (Create examples.brokenClient
       (DatabaseCluster (examples.cluster "db1" None None))
       examples.emptyWorld).1
    = (Returned (emptyCreation,
                 Some (withMessage (fundamental "500 server error")
                         errDBCreateFailed)),
       DatabaseCluster
         (SetConditions (examples.cluster "db1" None None) [xpv1.Creating])).
Proof.
  assert (Hn : targetName (examples.cluster "db1" None None) ≠ "")
    by (vm_compute; discriminate).
  split; [exact Hn|].
  exact (proj1 (Create_failure_binds_nothing examples.brokenClient
                  (examples.cluster "db1" None None) examples.emptyWorld Hn
                  (or_intror eq_refl))).
Defined.

(** X7. Create asks for connection details only when the resource names a
    connection secret and the create call has succeeded, and then for the
    database whose identifier it has just bound; without a connection-secret
    reference the connection details it returns are empty. *)
Theorem Create_connection_details_gated c cr w :
  (∀ id, CallConnectionDetails id ∈ newCalls w (Create c (DatabaseCluster cr) w).2 →
     WriteConnectionSecretToReference cr ≠ None
     ∧ ∃ ec cr',
         (Create c (DatabaseCluster cr) w).1
         = (Returned (ec, None), DatabaseCluster cr')
         ∧ meta.GetExternalName cr' = id)
  ∧ (WriteConnectionSecretToReference cr = None →
     ∃ err, (Create c (DatabaseCluster cr) w).1.1
            = Returned (emptyCreation, err)).
Proof.
  destruct (decide (targetName cr = "")) as [Hn|Hn].
  { rewrite Create_no_name by done. cbn [fst snd]. split; [|eauto].
    intros id Hin. rewrite newCalls_same in Hin. by apply elem_of_nil in Hin. }
  rewrite Create_unfold by done. cbv zeta.
  pose proof (calls_record_receive
                (Databases_Create c (createRequest cr (heap w))).1.1
                (CallCreate (createRequest cr (heap w))) w) as Hcalls.
  destruct (Databases_Create c _) as [[d response] err]. cbn [fst snd] in *.
  destruct (receive d _) as [[db|] w1], err as [e|]; cbn [fst snd] in *.
  1,3,4: split; [|intros _; eexists; reflexivity]; intros id Hin;
    rewrite (newCalls_eq _ _ _ Hcalls) in Hin;
    apply list_elem_of_singleton in Hin; discriminate.
  destruct (WriteConnectionSecretToReference cr) as [ref|] eqn:Href.
  - split; [|discriminate]. intros id Hin.
    erewrite newCalls_eq in Hin
      by (unfold record; simpl; rewrite Hcalls, <- app_assoc; reflexivity).
    apply elem_of_cons in Hin as [Hin|Hin]; [discriminate|].
    apply list_elem_of_singleton in Hin. injection Hin as ->.
    split; [discriminate|]. eexists _, _. split; [reflexivity|].
    apply GetExternalName_SetExternalName.
  - split; [|intros _; eexists; reflexivity]. intros id Hin.
    cbn [fst snd] in Hin. rewrite (newCalls_eq _ _ _ Hcalls) in Hin.
    apply list_elem_of_singleton in Hin. discriminate.
Qed.

Lemma Create_connection_details_gated_witness :
  WriteConnectionSecretToReference (examples.cluster "db1" None None) = None
  ∧ ∃ err,
      (Create examples.healthyClient
         (DatabaseCluster (examples.cluster "db1" None None))
         examples.emptyWorld).1.1 = Returned (emptyCreation, err).
Proof.
  split; [reflexivity|].
  exact (proj2 (Create_connection_details_gated examples.healthyClient
                  (examples.cluster "db1" None None) examples.emptyWorld)
           eq_refl).
Defined.

(** X8. The request Create sends is built from the resource as it stands:
    it carries the resolved name, the size, region and node count of the
    parameters, and the elements the parameters' tag list holds at that
    moment (no tags at all for a nil list).  It is the first call Create
    makes, and at most one call follows it. *)
Theorem Create_request_mirrors_spec c cr w :
  targetName cr ≠ "" →
  ∃ req rest,
    newCalls w (Create c (DatabaseCluster cr) w).2 = CallCreate req :: rest
    ∧ (rest = [] ∨ ∃ id, rest = [CallConnectionDetails id])
    ∧ godo.req_Name req = targetName cr
    ∧ godo.req_SizeSlug req = Size (ForProvider cr)
    ∧ godo.req_Region req = Region (ForProvider cr)
    ∧ godo.req_NumNodes req = NumNodes (ForProvider cr)
    ∧ godo.req_Tags req
      = (if is_nil (Tags (ForProvider cr)) then None
         else Some (contents (heap w) (Tags (ForProvider cr)))).
Proof.
  intros Hn. exists (createRequest cr (heap w)).
  rewrite Create_unfold by done. cbv zeta.
  pose proof (calls_record_receive
                (Databases_Create c (createRequest cr (heap w))).1.1
                (CallCreate (createRequest cr (heap w))) w) as Hcalls.
  destruct (Databases_Create c _) as [[d response] err]. cbn [fst snd] in *.
  destruct (receive d _) as [[db|] w1], err as [e|]; cbn [fst snd] in *.
  1,3,4: exists []; split; [by apply newCalls_eq|];
    split; [by left|]; repeat split.
  destruct (WriteConnectionSecretToReference cr) as [ref|].
  - eexists. split.
    { apply newCalls_eq. unfold record. simpl.
      rewrite Hcalls, <- app_assoc. reflexivity. }
    split; [right; eauto|]. repeat split.
  - exists []. split; [by apply newCalls_eq|]. split; [by left|]. repeat split.
Qed.

Lemma Create_request_mirrors_spec_witness :
  targetName (examples.cluster "db1" None None) ≠ ""
  ∧ ∃ req rest,
      newCalls examples.emptyWorld
        (Create examples.healthyClient
           (DatabaseCluster (examples.cluster "db1" None None))
           examples.emptyWorld).2 = CallCreate req :: rest
      ∧ godo.req_Region req = "nyc1".
Proof.
  assert (Hn : targetName (examples.cluster "db1" None None) ≠ "")
    by (vm_compute; discriminate).
  split; [exact Hn|].
  destruct (Create_request_mirrors_spec examples.healthyClient
              (examples.cluster "db1" None None) examples.emptyWorld Hn)
    as (req & rest & Hc & _ & _ & _ & Hr & _).
  exists req, rest. split; [exact Hc | exact Hr].
Defined.

(** X9. Create and Observe agree on the identity: after a Create that
    succeeded with a database whose ID is not empty, the next Observe
    fetches exactly that ID; had the service answered with an empty ID, the
    resource would count as not yet created (Observe reports exists=false
    without any call). *)
Theorem Create_then_Observe c c' cr w
  (j : godo.DatabaseJSON) (response : option godo.Response) :
  targetName cr ≠ "" →
  Databases_Create c (createRequest cr (heap w)) = (Some j, response, None) →
  let r := Create c (DatabaseCluster cr) w in
  (godo.ID j ≠ "" →
     ∃ rest, newCalls r.2 (Observe c' r.1.2 r.2).2 = CallGet (godo.ID j) :: rest)
  ∧ (godo.ID j = "" →
     (Observe c' r.1.2 r.2).1.1
       = Returned (mkExternalObservation false false, None)
     ∧ newCalls r.2 (Observe c' r.1.2 r.2).2 = []).
Proof.
  intros Hn Hc r.
  destruct (Create_success_binds_name_aux c cr w j response Hn Hc)
    as (cr' & Hr & He).
  subst r. rewrite Hr. split.
  - intros Hid. destruct (Observe_calls c' cr' (Create c (DatabaseCluster cr) w).2)
      as (rest & Hcalls & _); [by rewrite He|].
    rewrite He in Hcalls. eauto.
  - intros Hid.
    apply (Observe_without_name_aux c' cr' (Create c (DatabaseCluster cr) w).2).
    by rewrite He.
Qed.

Lemma Create_then_Observe_witness :
  targetName (examples.cluster "db1" None None) ≠ ""
  ∧ ∃ rest,
      newCalls
        (Create examples.healthyClient
           (DatabaseCluster (examples.cluster "db1" None None))
           examples.emptyWorld).2
        (Observe examples.healthyClient
           (Create examples.healthyClient
              (DatabaseCluster (examples.cluster "db1" None None))
              examples.emptyWorld).1.2
           (Create examples.healthyClient
              (DatabaseCluster (examples.cluster "db1" None None))
              examples.emptyWorld).2).2
      = CallGet "abc" :: rest.
Proof.
  assert (Hn : targetName (examples.cluster "db1" None None) ≠ "")
    by (vm_compute; discriminate).
  split; [exact Hn|].
  refine (proj1 (Create_then_Observe examples.healthyClient
                   examples.healthyClient (examples.cluster "db1" None None)
                   examples.emptyWorld examples.remoteDatabase
                   (Some (godo.mkResponse 201)) Hn eq_refl) _).
  discriminate.
Defined.

End create_more.

(** ** Observe, continued *)
Section observe_more.
Import errors v1alpha1 resource managed controller.
Implicit Types (c : dbExternal) (cr : DODatabaseCluster) (w : World).

(** Observe on a Database Cluster with an external name, step by step. *)
Lemma Observe_unfold c cr w :
  meta.GetExternalName cr ≠ "" →
  Observe c (DatabaseCluster cr) w
  = let en := meta.GetExternalName cr in
    let r := receive (Databases_Get c en).1.1 (record (CallGet en) w) in
    match (Databases_Get c en).2 with
    | Some _ =>
        (Returned (emptyObservation,
                   Wrap (clients.IgnoreNotFound (Databases_Get c en).2
                           (Databases_Get c en).1.2) errGetDB),
         DatabaseCluster cr, r.2)
    | None =>
        let dc := DeepCopy (ForProvider cr) (heap r.2) in
        match r.1 with
        | None => (Panicked, DatabaseCluster cr, withHeap r.2 dc.2)
        | Some observed =>
            let li := dodb.LateInitializeSpec (ForProvider cr) observed dc.2 in
            let cr1 := withForProvider cr li.1 in
            let w1 := withHeap (withHeap r.2 dc.2) li.2 in
            let done :=
              (Returned (mkExternalObservation true true, None),
               DatabaseCluster
                 (setCrossplaneStatus
                    (withAtProvider cr1 (dodb.GenerateObservation observed)))) in
            if negb (cmp.Equal li.2 dc.1 li.1) then
              match kube_Update c li.2 cr1 with
              | Some e =>
                  (Returned (emptyObservation, Wrap (Some e) errDBUpdate),
                   DatabaseCluster cr1, record (CallKubeUpdate cr1) w1)
              | None => (done, record (CallKubeUpdate cr1) w1)
              end
            else (done, w1)
        end
    end.
Proof.
  intros He. unfold Observe. rewrite bool_decide_eq_false_2 by done.
  cbv zeta.
  destruct (Databases_Get c _) as [[observed response] err]. cbn [fst snd].
  destruct (receive observed _) as [o w1]. cbn [fst snd].
  destruct err as [e|]; [reflexivity|].
  destruct (DeepCopy _ _) as [currentSpec h1]. cbn [fst snd].
  destruct o as [o|]; [|reflexivity].
  unfold withHeap at 1 2. cbn [heap].
  destruct (dodb.LateInitializeSpec _ _ _) as [p h2]. cbn [fst snd].
  cbn [ForProvider withForProvider heap withHeap].
  destruct (negb _); [|reflexivity].
  destruct (kube_Update c h2 _); reflexivity.
Qed.

Lemma calls_get_receive c cr w :
  calls (receive (Databases_Get c (meta.GetExternalName cr)).1.1
           (record (CallGet (meta.GetExternalName cr)) w)).2
  = calls w ++ [CallGet (meta.GetExternalName cr)].
Proof. by rewrite calls_receive. Qed.

(** Receiving a database only allocates: valid slices stay valid and keep
    their elements. *)
Lemma receive_valid (d : option godo.DatabaseJSON) w (s : slice) :
  valid (heap w) s →
  valid (heap (receive d w).2) s
  ∧ contents (heap (receive d w).2) s = contents (heap w) s.
Proof.
  intros Hs. destruct d as [j|]; [|done].
  unfold receive, godo.decode. destruct (godo.Tags j) as [l|]; simpl; [|done].
  destruct s as [|l' n']; simpl; [done|]. destruct Hs as (a & Ha & Hle).
  assert (fresh (dom (heap w)) ≠ l').
  { intros Heq. apply (is_fresh (dom (heap w))). rewrite Heq.
    apply elem_of_dom. eauto. }
  rewrite lookup_insert_ne by done. rewrite Ha. eauto.
Qed.

(** DeepCopy gives parameters that cmp.Equal cannot tell from the original,
    and keeps valid slices valid. *)
Lemma DeepCopy_spec (p : DODatabaseClusterParameters) (h : Heap) :
  valid h (Tags p) →
  Engine (DeepCopy p h).1 = Engine p
  ∧ Version (DeepCopy p h).1 = Version p
  ∧ NumNodes (DeepCopy p h).1 = NumNodes p
  ∧ Size (DeepCopy p h).1 = Size p
  ∧ Region (DeepCopy p h).1 = Region p
  ∧ PrivateNetworkUUID (DeepCopy p h).1 = PrivateNetworkUUID p
  ∧ is_nil (Tags (DeepCopy p h).1) = is_nil (Tags p)
  ∧ contents (DeepCopy p h).2 (Tags (DeepCopy p h).1) = contents h (Tags p)
  ∧ (∀ s, valid h s →
       valid (DeepCopy p h).2 s ∧ contents (DeepCopy p h).2 s = contents h s).
Proof.
  intros Hv. unfold DeepCopy. destruct (Tags p) as [|l n] eqn:Ht.
  { simpl. rewrite Ht. repeat split; done. }
  destruct (make_copy_spec h (mkSlice l n) Hv)
    as (l1 & h1 & Hmk & Hfresh & Hcont & Hold).
  pose proof (make_copy_heap h (mkSlice l n)) as [_ Hkeep].
  cbn [len] in *. rewrite Hmk in *. cbn [fst snd] in *.
  repeat split; try done. all: by apply Hkeep.
Qed.

(** X10. Observe dereferences the database the fetch returned without a nil
    check: when the service answers the fetch with neither a database nor an
    error, Observe panics, after the fetch and with the resource
    unchanged. *)
Theorem Observe_nil_database_panics c cr w (response : option godo.Response) :
  meta.GetExternalName cr ≠ "" →
  Databases_Get c (meta.GetExternalName cr) = (None, response, None) →
  (Observe c (DatabaseCluster cr) w).1 = (Panicked, DatabaseCluster cr)
  ∧ newCalls w (Observe c (DatabaseCluster cr) w).2
    = [CallGet (meta.GetExternalName cr)].
Proof.
  intros He Hg. rewrite Observe_unfold by done. cbv zeta. rewrite Hg.
  cbn [fst snd]. rewrite receive_None. cbn [fst snd].
  split; [reflexivity|]. by apply newCalls_eq.
Qed.

Lemma Observe_nil_database_panics_witness :
  meta.GetExternalName (examples.cluster "db1" (Some "abc") None) ≠ ""
  ∧ (Observe examples.silentClient
       (DatabaseCluster (examples.cluster "db1" (Some "abc") None))
       examples.emptyWorld).1
    = (Panicked, DatabaseCluster (examples.cluster "db1" (Some "abc") None)).
Proof.
  assert (He : meta.GetExternalName
                 (examples.cluster "db1" (Some "abc") None) ≠ "")
    by (vm_compute; discriminate).
  split; [exact He|].
  exact (proj1 (Observe_nil_database_panics examples.silentClient
                  (examples.cluster "db1" (Some "abc") None)
                  examples.emptyWorld None He eq_refl)).
Defined.

(** X11. When the fetch fails, Observe stops there: it returns the zero
    observation, the resource is exactly as it was (no late initialization,
    no status refresh, no condition change), the fetch is the only call
    made, and unless the failure is a not-found the error returned is the
    fetch error wrapped with the fixed "cannot get" tag. *)
Theorem Observe_fetch_error c cr w (e : goerror) :
  meta.GetExternalName cr ≠ "" →
  (Databases_Get c (meta.GetExternalName cr)).2 = Some e →
  (∃ err, (Observe c (DatabaseCluster cr) w).1
          = (Returned (emptyObservation, err), DatabaseCluster cr)
          ∧ (clients.isNotFound (Databases_Get c (meta.GetExternalName cr)).1.2
             = false → err = Some (withMessage e errGetDB)))
  ∧ newCalls w (Observe c (DatabaseCluster cr) w).2
    = [CallGet (meta.GetExternalName cr)].
Proof.
  intros He Hg. rewrite Observe_unfold by done. cbv zeta.
  pose proof (calls_get_receive c cr w) as Hcalls.
  rewrite Hg. cbn [fst snd]. split; [|by apply newCalls_eq].
  eexists. split; [reflexivity|]. unfold clients.IgnoreNotFound.
  by intros ->.
Qed.

Lemma Observe_fetch_error_witness :
  meta.GetExternalName (examples.cluster "db1" (Some "abc") None) ≠ ""
  ∧ newCalls examples.emptyWorld
      (Observe examples.brokenClient
         (DatabaseCluster (examples.cluster "db1" (Some "abc") None))
         examples.emptyWorld).2
    = [CallGet "abc"].
Proof.
  assert (He : meta.GetExternalName
                 (examples.cluster "db1" (Some "abc") None) ≠ "")
    by (vm_compute; discriminate).
  split; [exact He|].
  exact (proj2 (Observe_fetch_error examples.brokenClient
                  (examples.cluster "db1" (Some "abc") None)
                  examples.emptyWorld (fundamental "500 server error")
                  He eq_refl)).
Defined.

(** X12. When the fetch succeeded and Observe still returns an error, the
    error is the failure of the object-store update wrapped with the fixed
    "cannot update" tag.  Nothing is refreshed and nothing is rolled back:
    the resource Observe leaves behind is the one it tried to persist, with
    the observed state, conditions, name and annotations it had before the
    call; only its parameters may differ. *)
Theorem Observe_update_failure c cr w (obs : ExternalObservation) (err : goerror) :
  meta.GetExternalName cr ≠ "" →
  (Databases_Get c (meta.GetExternalName cr)).2 = None →
  (Observe c (DatabaseCluster cr) w).1.1 = Returned (obs, Some err) →
  ∃ e cr1,
    err = withMessage e errDBUpdate
    ∧ obs = emptyObservation
    ∧ (Observe c (DatabaseCluster cr) w).1.2 = DatabaseCluster cr1
    ∧ kube_Update c (heap (Observe c (DatabaseCluster cr) w).2) cr1 = Some e
    ∧ cr1 = withForProvider cr (ForProvider cr1)
    ∧ newCalls w (Observe c (DatabaseCluster cr) w).2
      = [CallGet (meta.GetExternalName cr); CallKubeUpdate cr1].
Proof.
  intros He Hg. rewrite Observe_unfold by done. cbv zeta.
  pose proof (calls_get_receive c cr w) as Hcalls.
  rewrite Hg.
  destruct (receive _ _) as [[o|] w1]; cbn [fst snd] in *; [|discriminate].
  destruct (cmp.Equal _ _ _) eqn:Heq; cbn [negb fst snd]; [discriminate|].
  destruct (kube_Update c _ _) as [e|] eqn:Hk; cbn [fst snd]; [|discriminate].
  intros [= <- <-]. exists e. eexists. split; [reflexivity|].
  split; [reflexivity|]. split; [reflexivity|]. split; [exact Hk|].
  split; [reflexivity|].
  apply newCalls_eq. unfold record, withHeap. simpl.
  by rewrite Hcalls, <- app_assoc.
Qed.

Lemma Observe_update_failure_witness :
  meta.GetExternalName (examples.cluster "db1" (Some "abc") None) ≠ ""
  ∧ ∃ cr1,
      (Observe examples.conflictingStoreClient
         (DatabaseCluster (examples.cluster "db1" (Some "abc") None))
         examples.emptyWorld).1.2 = DatabaseCluster cr1
      ∧ newCalls examples.emptyWorld
          (Observe examples.conflictingStoreClient
             (DatabaseCluster (examples.cluster "db1" (Some "abc") None))
             examples.emptyWorld).2
        = [CallGet "abc"; CallKubeUpdate cr1].
Proof.
  assert (He : meta.GetExternalName
                 (examples.cluster "db1" (Some "abc") None) ≠ "")
    by (vm_compute; discriminate).
  assert (Hrun : (Observe examples.conflictingStoreClient
       (DatabaseCluster (examples.cluster "db1" (Some "abc") None))
       examples.emptyWorld).1.1
    = Returned (emptyObservation,
                Some (withMessage (fundamental "conflict") errDBUpdate)))
    by (vm_compute; reflexivity).
  split; [exact He|].
  destruct (Observe_update_failure examples.conflictingStoreClient
              (examples.cluster "db1" (Some "abc") None) examples.emptyWorld
              emptyObservation (withMessage (fundamental "conflict") errDBUpdate)
              He eq_refl Hrun)
    as (e & cr1 & _ & _ & Hr & _ & _ & Hcalls).
  exists cr1. split; [exact Hr | exact Hcalls].
Defined.

Lemma cmp_Equal_intro (h : Heap) (x y : DODatabaseClusterParameters) :
  Engine x = Engine y → Version x = Version y → NumNodes x = NumNodes y →
  Size x = Size y → Region x = Region y →
  PrivateNetworkUUID x = PrivateNetworkUUID y →
  is_nil (Tags x) = is_nil (Tags y) →
  contents h (Tags x) = contents h (Tags y) →
  cmp.Equal h x y = true.
Proof.
  intros. unfold cmp.Equal. by rewrite !bool_decide_eq_true_2.
Qed.

Lemma DeepCopy_Version (p : DODatabaseClusterParameters) (h : Heap) :
  Version (DeepCopy p h).1 = Version p.
Proof.
  unfold DeepCopy. destruct (Tags p); [done|].
  by destruct (make _ _).
Qed.

(** setCrossplaneStatus changes the conditions and nothing else. *)
Lemma setCrossplaneStatus_frame cr :
  setCrossplaneStatus cr = withConditions cr (Conditions (setCrossplaneStatus cr)).
Proof.
  unfold setCrossplaneStatus. repeat case_bool_decide; by destruct cr.
Qed.

(** LateInitializeSpec never writes engine, node count, size or region. *)
Lemma LateInitializeSpec_fixed_fields
  (p : DODatabaseClusterParameters) (observed : godo.Database) (h : Heap) :
  Engine (dodb.LateInitializeSpec p observed h).1 = Engine p
  ∧ NumNodes (dodb.LateInitializeSpec p observed h).1 = NumNodes p
  ∧ Size (dodb.LateInitializeSpec p observed h).1 = Size p
  ∧ Region (dodb.LateInitializeSpec p observed h).1 = Region p.
Proof.
  destruct (decide (len (Tags p) = 0)) as [H0|H0];
    [destruct (decide (len (godo.Tags observed) = 0)) as [Ho|Ho]|].
  - by rewrite LateInitializeSpec_keep by auto.
  - by rewrite LateInitializeSpec_copy by auto.
  - by rewrite LateInitializeSpec_keep by auto.
Qed.

(** X13. Observe writes to the object store only when late initialization
    changed the parameters: on a resource whose optional parameters are all
    set (version, private-network id, a non-empty valid tag list) the fetch
    is the only call Observe makes, however the fetch ends, and the
    parameters of the resource are left as they were. *)
Theorem Observe_no_update_when_initialized c cr w (v u : string) :
  meta.GetExternalName cr ≠ "" →
  Version (ForProvider cr) = Some v →
  PrivateNetworkUUID (ForProvider cr) = Some u →
  len (Tags (ForProvider cr)) ≠ 0 →
  valid (heap w) (Tags (ForProvider cr)) →
  newCalls w (Observe c (DatabaseCluster cr) w).2
    = [CallGet (meta.GetExternalName cr)]
  ∧ ∃ cr', (Observe c (DatabaseCluster cr) w).1.2 = DatabaseCluster cr'
           ∧ ForProvider cr' = ForProvider cr.
Proof.
  intros He Hv Hu Ht Hvalid. rewrite Observe_unfold by done. cbv zeta.
  pose proof (calls_get_receive c cr w) as Hcalls.
  pose proof (receive_valid (Databases_Get c (meta.GetExternalName cr)).1.1
                (record (CallGet (meta.GetExternalName cr)) w) _ Hvalid)
    as [Hvalid1 _].
  destruct (Databases_Get c _) as [[d response] err]. cbn [fst snd] in *.
  destruct (receive d _) as [o w1]. cbn [fst snd] in *.
  destruct err as [e|]; cbn [fst snd].
  { split; [by apply newCalls_eq | eauto]. }
  destruct o as [o|]; cbn [fst snd].
  2: { split; [by apply newCalls_eq | eauto]. }
  rewrite (LateInitializeSpec_noop_when_set _ _ _ v u Hv Hu Ht). cbn [fst snd].
  destruct (DeepCopy_spec (ForProvider cr) (heap w1) Hvalid1)
    as (H1 & H2 & H3 & H4 & H5 & H6 & H7 & H8 & H9).
  rewrite cmp_Equal_intro; try done.
  2: { rewrite H8. symmetry. by apply H9. }
  cbn [negb fst snd]. split; [by apply newCalls_eq|].
  eexists. split; [reflexivity|].
  rewrite setCrossplaneStatus_frame. reflexivity.
Qed.

Lemma Observe_no_update_when_initialized_witness :
  valid examples.tagHeap (Tags examples.fullParameters)
  ∧ newCalls (mkWorld examples.tagHeap [])
      (Observe examples.healthyClient
         (DatabaseCluster
            (withForProvider (examples.cluster "db1" (Some "abc") None)
               examples.fullParameters))
         (mkWorld examples.tagHeap [])).2
    = [CallGet "abc"].
Proof.
  assert (Hv : valid examples.tagHeap (Tags examples.fullParameters)).
  { exists ["a"; "b"]. split; [reflexivity | simpl; lia]. }
  split; [exact Hv|].
  refine (proj1 (Observe_no_update_when_initialized examples.healthyClient
                   (withForProvider (examples.cluster "db1" (Some "abc") None)
                      examples.fullParameters)
                   (mkWorld examples.tagHeap []) "14" "vpc-0"
                   _ eq_refl eq_refl _ Hv)).
  - vm_compute. discriminate.
  - simpl. lia.
Defined.

(** X14. Late initialization is persisted: when the fetch returns a database
    with a non-empty engine slug and the resource has no version, Observe
    stores the resource with version set to that engine slug, as its second
    and last call. *)
Theorem Observe_persists_late_initialization c cr w
  (j : godo.DatabaseJSON) (response : option godo.Response) :
  meta.GetExternalName cr ≠ "" →
  Databases_Get c (meta.GetExternalName cr) = (Some j, response, None) →
  Version (ForProvider cr) = None →
  godo.EngineSlug j ≠ "" →
  ∃ cr1,
    newCalls w (Observe c (DatabaseCluster cr) w).2
    = [CallGet (meta.GetExternalName cr); CallKubeUpdate cr1]
    ∧ Version (ForProvider cr1) = Some (godo.EngineSlug j)
    ∧ cr1 = withForProvider cr (ForProvider cr1).
Proof.
  intros He Hg Hv Hslug. rewrite Observe_unfold by done. cbv zeta.
  pose proof (calls_get_receive c cr w) as Hcalls.
  rewrite Hg in *. cbn [fst snd] in *.
  destruct (receive_Some j (record (CallGet (meta.GetExternalName cr)) w))
    as (db & Hdb & _ & _ & Hengine & _).
  destruct (receive (Some j) _) as [o w1]. cbn [fst snd] in *. subst o.
  set (dc := DeepCopy (ForProvider cr) (heap w1)).
  set (li := dodb.LateInitializeSpec (ForProvider cr) db dc.2).
  assert (Hli : Version li.1 = Some (godo.EngineSlug j)).
  { rewrite <- Hengine in *.
    by apply (LateInitializeSpec_fills_unset (ForProvider cr) db dc.2). }
  assert (Hneq : cmp.Equal li.2 dc.1 li.1 = false).
  { unfold cmp.Equal.
    rewrite (bool_decide_eq_false_2 (Version dc.1 = Version li.1)).
    - by rewrite andb_false_r.
    - unfold dc. rewrite DeepCopy_Version, Hv, Hli. discriminate. }
  rewrite Hneq. cbn [negb].
  exists (withForProvider cr li.1).
  split; [|split; [exact Hli | reflexivity]].
  destruct (kube_Update c _ _); cbn [fst snd]; apply newCalls_eq;
    unfold record, withHeap; simpl; by rewrite Hcalls, <- app_assoc.
Qed.

Lemma Observe_persists_late_initialization_witness :
  meta.GetExternalName (examples.cluster "db1" (Some "abc") None) ≠ ""
  ∧ ∃ cr1,
      newCalls examples.emptyWorld
        (Observe examples.healthyClient
           (DatabaseCluster (examples.cluster "db1" (Some "abc") None))
           examples.emptyWorld).2
      = [CallGet "abc"; CallKubeUpdate cr1]
      ∧ Version (ForProvider cr1) = Some "mysql".
Proof.
  assert (He : meta.GetExternalName
                 (examples.cluster "db1" (Some "abc") None) ≠ "")
    by (vm_compute; discriminate).
  split; [exact He|].
  destruct (Observe_persists_late_initialization examples.healthyClient
              (examples.cluster "db1" (Some "abc") None) examples.emptyWorld
              examples.remoteDatabase (Some (godo.mkResponse 200))
              He eq_refl eq_refl)
    as (cr1 & Hcalls & Hv & _); [discriminate|].
  exists cr1. split; [exact Hcalls | exact Hv].
Defined.

(** X15. Observe never touches what the user owns beyond late
    initialization: whatever the service answers, the resource it leaves
    behind has the name, the annotations (so the external name), the
    connection-secret reference, and the engine, node count, size and region
    it had before. *)
Theorem Observe_keeps_identity c cr w :
  ∃ cr', (Observe c (DatabaseCluster cr) w).1.2 = DatabaseCluster cr'
         ∧ GetName cr' = GetName cr
         ∧ Annotations cr' = Annotations cr
         ∧ WriteConnectionSecretToReference cr'
           = WriteConnectionSecretToReference cr
         ∧ Engine (ForProvider cr') = Engine (ForProvider cr)
         ∧ NumNodes (ForProvider cr') = NumNodes (ForProvider cr)
         ∧ Size (ForProvider cr') = Size (ForProvider cr)
         ∧ Region (ForProvider cr') = Region (ForProvider cr).
Proof.
  destruct (decide (meta.GetExternalName cr = "")) as [He|He].
  { unfold Observe. rewrite bool_decide_eq_true_2 by done. cbn [fst snd].
    eexists. split; [reflexivity|]. repeat split. }
  rewrite Observe_unfold by done. cbv zeta.
  destruct (Databases_Get c _) as [[d response] err]. cbn [fst snd].
  destruct (receive d _) as [o w1]. cbn [fst snd].
  destruct err as [e|]; cbn [fst snd].
  { eexists. split; [reflexivity|]. repeat split. }
  destruct o as [o|]; cbn [fst snd].
  2: { eexists. split; [reflexivity|]. repeat split. }
  pose proof (LateInitializeSpec_fixed_fields (ForProvider cr) o
                (DeepCopy (ForProvider cr) (heap w1)).2) as (H1 & H2 & H3 & H4).
  destruct (negb _); [destruct (kube_Update c _ _)|]; cbn [fst snd];
    eexists; (split; [reflexivity|]);
    try rewrite setCrossplaneStatus_frame; repeat split; assumption.
Qed.

End observe_more.

(** ** Conditions, continued *)
Section conditions_more.
Import xpv1.

Lemma Equal_refl c : Equal c c = true.
Proof. unfold Equal. by rewrite !bool_decide_eq_true_2. Qed.

Lemma replaceCondition_other new cs (ct : string) :
  Type_ new ≠ ct →
  GetCondition (replaceCondition new cs).1 ct = GetCondition cs ct.
Proof.
  intros Hne. induction cs as [|existing rest IH]; simpl; [done|].
  destruct (replaceCondition new rest) as [rest' found]. simpl in *.
  case_bool_decide as Hty; simpl.
  - destruct (Equal existing new); simpl.
    + by rewrite IH.
    + rewrite (bool_decide_eq_false_2 (Type_ new = ct)) by done.
      rewrite (bool_decide_eq_false_2 (Type_ existing = ct)) by congruence.
      done.
  - by rewrite IH.
Qed.

Lemma GetCondition_app_other cs new (ct : string) :
  Type_ new ≠ ct → GetCondition (cs ++ [new]) ct = GetCondition cs ct.
Proof.
  intros Hne. induction cs as [|c cs IH]; simpl.
  - by rewrite bool_decide_eq_false_2.
  - by rewrite IH.
Qed.

(** Setting a condition leaves the conditions of every other type alone. *)
Lemma GetCondition_SetConditions_other cs new (ct : string) :
  Type_ new ≠ ct →
  GetCondition (SetConditions cs [new]) ct = GetCondition cs ct.
Proof.
  intros Hne. unfold SetConditions. simpl. unfold setCondition.
  pose proof (replaceCondition_other new cs ct Hne) as Hr.
  destruct (replaceCondition new cs) as [cs' found]. simpl in Hr.
  destruct found; [done|]. by rewrite GetCondition_app_other.
Qed.

Lemma replaceCondition_again new cs :
  replaceCondition new (replaceCondition new cs).1 = replaceCondition new cs.
Proof.
  induction cs as [|existing rest IH]; simpl; [done|].
  destruct (replaceCondition new rest) as [rest' found]. simpl in *.
  case_bool_decide as Hty; simpl.
  - rewrite IH. destruct (Equal existing new) eqn:Heq.
    + by rewrite bool_decide_eq_true_2, Heq.
    + by rewrite bool_decide_eq_true_2, Equal_refl.
  - by rewrite IH, bool_decide_eq_false_2.
Qed.

Lemma replaceCondition_appended new cs :
  Forall (λ c, Type_ c ≠ Type_ new) cs →
  replaceCondition new (cs ++ [new]) = (cs ++ [new], true).
Proof.
  induction 1 as [|c cs Hc _ IH]; simpl.
  - by rewrite bool_decide_eq_true_2, Equal_refl.
  - by rewrite IH, bool_decide_eq_false_2.
Qed.

(** Setting the same condition twice is setting it once. *)
Lemma SetConditions_again cs new :
  SetConditions (SetConditions cs [new]) [new] = SetConditions cs [new].
Proof.
  unfold SetConditions. simpl. unfold setCondition.
  pose proof (replaceCondition_again new cs) as Hagain.
  pose proof (replaceCondition_spec new cs) as [_ Hnone].
  destruct (replaceCondition new cs) as [cs' found]. simpl in *.
  destruct found.
  - by rewrite Hagain.
  - destruct (Hnone eq_refl) as [-> Hall].
    by rewrite replaceCondition_appended.
Qed.

End conditions_more.

(** ** The status mapping and Delete, continued *)
Section status_more.
Import errors v1alpha1 resource managed controller.
Implicit Types (c : dbExternal) (cr : DODatabaseCluster) (w : World).

(** X16. setCrossplaneStatus only ever speaks about readiness: a condition
    of any other type (Synced, say) reads the same before and after, for
    every observed status. *)
Theorem setCrossplaneStatus_only_Ready cr (ct : string) :
  ct ≠ xpv1.TypeReady →
  GetCondition (setCrossplaneStatus cr) ct = GetCondition cr ct.
Proof.
  intros Hct. unfold setCrossplaneStatus, GetCondition.
  repeat case_bool_decide; try reflexivity; simpl;
    apply GetCondition_SetConditions_other; simpl; congruence.
Qed.

Lemma setCrossplaneStatus_only_Ready_witness :
  GetCondition
    (setCrossplaneStatus
       (withStatus (examples.cluster "db1" (Some "abc") (Some "abc")) "online"))
    "Synced"
  = GetCondition
      (withStatus (examples.cluster "db1" (Some "abc") (Some "abc")) "online")
      "Synced".
Proof.
  apply (setCrossplaneStatus_only_Ready
           (withStatus (examples.cluster "db1" (Some "abc") (Some "abc")) "online")
           "Synced").
  discriminate.
Defined.

(** X17. setCrossplaneStatus is idempotent: mapping the same observed status
    a second time changes nothing, so repeated Observes of an unchanged
    database leave the conditions stable. *)
Theorem setCrossplaneStatus_idempotent cr :
  setCrossplaneStatus (setCrossplaneStatus cr) = setCrossplaneStatus cr.
Proof.
  assert (Hset : ∀ x, SetConditions (SetConditions cr [x]) [x]
                      = SetConditions cr [x]).
  { intros x. unfold SetConditions, withConditions.
    cbn [Conditions ObjectName Annotations WriteConnectionSecretToReference
         ForProvider AtProvider].
    by rewrite SetConditions_again. }
  remember (setCrossplaneStatus cr) as cr1 eqn:Hcr1.
  assert (Hs : Status (AtProvider cr1) = Status (AtProvider cr))
    by (subst cr1; by rewrite setCrossplaneStatus_frame).
  unfold setCrossplaneStatus. rewrite Hs. subst cr1.
  unfold setCrossplaneStatus.
  repeat case_bool_decide; try reflexivity; apply Hset.
Qed.

(** X18. Delete marks the resource as Deleting and touches nothing else,
    whether it then returns or panics: name, annotations (the external name
    stays bound), parameters and observed state are as before, the heap is
    unchanged, and at most one call is made. *)
Theorem Delete_leaves_Deleting c cr w :
  ∃ cr', (Delete c (DatabaseCluster cr) w).1.2 = DatabaseCluster cr'
         ∧ GetCondition cr' xpv1.TypeReady = xpv1.Deleting
         ∧ cr' = withConditions cr (Conditions cr')
         ∧ heap (Delete c (DatabaseCluster cr) w).2 = heap w
         ∧ length (newCalls w (Delete c (DatabaseCluster cr) w).2) ≤ 1.
Proof.
  exists (SetConditions cr [xpv1.Deleting]).
  assert (Hc : GetCondition (SetConditions cr [xpv1.Deleting]) xpv1.TypeReady
               = xpv1.Deleting)
    by apply (GetCondition_SetConditions (Conditions cr) xpv1.Deleting).
  destruct (ID (AtProvider cr)) as [id|] eqn:Hid.
  - rewrite (Delete_with_ID c cr w id Hid). cbn [fst snd].
    repeat split; [exact Hc|]. erewrite newCalls_eq by reflexivity. simpl. lia.
  - unfold Delete. rewrite AtProvider_SetConditions, Hid. cbn [fst snd].
    repeat split; [exact Hc|]. rewrite newCalls_same. simpl. lia.
Qed.

End status_more.

(** ** Calls *)
Section calls_more.
Import errors v1alpha1 resource managed controller requests.
Implicit Types (c : dbExternal) (cr : DODatabaseCluster) (w : World).

(** X19. No operation retries or erases anything: on every handle and
    against every service, each operation only appends to the calls made so
    far; Observe and Create append at most two calls, Delete at most one,
    and Update none. *)
Theorem operations_append_bounded_calls c (mg : Managed) w :
  (∃ l, calls (Observe c mg w).2 = calls w ++ l ∧ length l ≤ 2)
  ∧ (∃ l, calls (Create c mg w).2 = calls w ++ l ∧ length l ≤ 2)
  ∧ calls (Update c mg w).2 = calls w
  ∧ (∃ l, calls (Delete c mg w).2 = calls w ++ l ∧ length l ≤ 1).
Proof.
  assert (Hnil : ∀ n, ∃ l : list Call, calls w = calls w ++ l ∧ length l ≤ n).
  { intros n. exists []. rewrite app_nil_r. split; [done | simpl; lia]. }
  destruct mg as [cr|kind]; [|by repeat split].
  split; [|split; [|split]].
  - destruct (decide (meta.GetExternalName cr = "")) as [He|He].
    { unfold Observe. rewrite bool_decide_eq_true_2 by done. apply Hnil. }
    rewrite Observe_unfold by done. cbv zeta.
    pose proof (calls_get_receive c cr w) as Hcalls.
    destruct (Databases_Get c _) as [[d response] err]. cbn [fst snd] in *.
    destruct (receive d _) as [o w1]. cbn [fst snd] in *.
    destruct err as [e|]; cbn [fst snd].
    { eexists. split; [exact Hcalls | simpl; lia]. }
    destruct o as [o|]; cbn [fst snd].
    2: { eexists. split; [exact Hcalls | simpl; lia]. }
    destruct (negb _); [destruct (kube_Update c _ _)|]; cbn [fst snd];
      unfold record, withHeap; cbn [calls];
      rewrite Hcalls, <- ?app_assoc; eexists; (split; [reflexivity|]);
      simpl; lia.
  - destruct (decide (targetName cr = "")) as [Hn|Hn].
    { rewrite Create_no_name by done. apply Hnil. }
    rewrite Create_unfold by done. cbv zeta.
    pose proof (calls_record_receive
                  (Databases_Create c (createRequest cr (heap w))).1.1
                  (CallCreate (createRequest cr (heap w))) w) as Hcalls.
    destruct (Databases_Create c _) as [[d response] err]. cbn [fst snd] in *.
    destruct (receive d _) as [[db|] w1], err as [e|]; cbn [fst snd] in *;
      try (eexists; split; [exact Hcalls | simpl; lia]).
    destruct (WriteConnectionSecretToReference cr); cbn [fst snd];
      unfold record; cbn [calls];
      rewrite Hcalls, <- ?app_assoc; eexists; (split; [reflexivity|]);
      simpl; lia.
  - reflexivity.
  - destruct (ID (AtProvider cr)) as [id|] eqn:Hid.
    + rewrite (Delete_with_ID c cr w id Hid). cbn [fst snd]. unfold record.
      cbn [calls]. eexists. split; [reflexivity | simpl; lia].
    + unfold Delete. rewrite AtProvider_SetConditions, Hid. apply Hnil.
Qed.

End calls_more.
